(** * histolab: the GTEx tile-extraction example and the data registry

    A shallow embedding of
    - [examples/GTEx/extract_tile_PW_GTEx.py]: the WSI retriever
      ([download_wsi_gtex]), the tile-naming convention of
      [extract_random_tiles], the metadata join of
      [split_tiles_patient_wise] and the patient-wise splitter
      [train_test_df_patient_wise];
    - [histolab/data/_registry.py]: the three registry dictionaries.

    Python dictionaries are [gmap]s, data frames are lists of rows, raised
    exceptions are the [Raise] branch of a result type, and the
    process-wide state (directory contents, numpy's global generator, the
    log of network fetches and sleeps) is threaded explicitly. *)

From Stdlib Require Import Ascii String ZArith QArith Qround.
From stdpp Require Import base option list sorting gmap strings.

Set Warnings "-clear-no-such-hyp".
Open Scope string_scope.
Open Scope list_scope.

(** ** Exceptions and results *)

Inductive exn : Type :=
  | KeyError (key : string)
  | ValueError (msg : string)
  | ConnectionError (url : string)
  | OSError (msg : string).

Inductive result (A : Type) : Type :=
  | Ok (a : A)
  | Raise (e : exn).
Arguments Ok {A} a.
Arguments Raise {A} e.

(** Sequencing: an exception raised by the first statement propagates. *)
Global Instance result_bind : MBind result := λ A B k r,
  match r with
  | Ok a => k a
  | Raise e => Raise e
  end.
Global Instance result_ret : MRet result := λ A a, Ok a.

(** ** Python string helpers *)

Module Py.

(** [s.split(sep)] for a one-character separator. *)
Fixpoint split (sep : ascii) (s : string) : list string :=
  match s with
  | EmptyString => [EmptyString]
  | String c s' =>
      if decide (c = sep) then EmptyString :: split sep s'
      else match split sep s' with
           | hd :: tl => String c hd :: tl
           | [] => [String c EmptyString]
           end
  end.

(** The characters of a string. *)
Fixpoint chars (s : string) : list ascii :=
  match s with
  | EmptyString => []
  | String c s' => c :: chars s'
  end.

(** [s.rfind(c)]: position of the last occurrence. *)
Fixpoint rfind (c : ascii) (s : string) : option nat :=
  match s with
  | EmptyString => None
  | String d s' =>
      match rfind c s' with
      | Some i => Some (S i)
      | None => if decide (d = c) then Some 0 else None
      end
  end.

Fixpoint drop (n : nat) (s : string) : string :=
  match n, s with
  | 0, _ => s
  | S n', String _ s' => drop n' s'
  | S _, EmptyString => EmptyString
  end.

Fixpoint take (n : nat) (s : string) : string :=
  match n, s with
  | 0, _ => EmptyString
  | S n', String c s' => String c (take n' s')
  | S _, EmptyString => EmptyString
  end.

(** [os.path.splitext(f)] for a directory entry [f] (no path separator):
    the extension starts at the last dot, unless only dots precede it. *)
Definition splitext (f : string) : string * string :=
  match rfind "." f with
  | Some i =>
      if forallb (λ c, bool_decide (c = "."%char)) (chars (take i f))
      then (f, EmptyString)
      else (take i f, drop i f)
  | None => (f, EmptyString)
  end.

End Py.

(** ** The data registry ([histolab/data/_registry.py]) *)

Module Registry.

Definition legacy_datasets : list string := ["cmu_small_region.svs"].

Definition registry_items : list (string * string) :=
  [ ("histolab/broken.svs", "b1325916876afa17ad5e02d2e7298ee883e758ed25369470d85bc0990e928e11");
    ("histolab/kidney.png", "5c6dc1b9ae10a2865302d9c8eda360362ec47732cb3e9766c38ed90cb9f4c371");
    ("data/cmu_small_region.svs", "ed92d5a9f2e86df67640d6f92ce3e231419ce127131697fbbce42ad5e002c8a7");
    ("aperio/JP2K-33003-1.svs", "6205ccf75a8fa6c32df7c5c04b7377398971a490fb6b320d50d91f7ba6a0e6fd");
    ("aperio/JP2K-33003-2.svs", "1a13cef86b55b51127cebd94a1f6069f7de494c98e3e708640d1ce7181d9e3fd");
    ("tcga/breast/TCGA-A8-A082-01A-01-TS1.3cad4a77-47a6-4658-becf-d8cffa161d3a.svs", "e955f47b83c8a5ae382ff8559493548f90f85c17c86315dd03134c041f44df70");
    ("tcga/breast/TCGA-A1-A0SH-01Z-00-DX1.90E71B08-E1D9-4FC2-85AC-062E56DDF17C.svs", "6de90fe92400e592839ab7f87c15d9924bc539c61ee3b3bc8ef044f98d16031b");
    ("tcga/breast/31e248bf-ee24-4d18-bccb-47046fccb461", "95163831d9076bb5e5b21790933dee9535a3607ba35bd6ae425374a45ecb1ba6");
    ("tcga/prostate/6b725022-f1d5-4672-8c6c-de8140345210", "305c80e28227b25fdd0cc24726da4cf038380b4326e25c6518ffe23051a25ac0");
    ("tcga/ovarian/b777ec99-2811-4aa4-9568-13f68e380c86", "f8e5059a0c9f8c026cfb2613cddef6562f8cdbd5954580282e2afa41d2f86a8c");
    ("9798433/?format=tif", "7db49ff9fc3f6022ae334cf019e94ef4450f7d4cf0d71783e0f6ea82965d3a52");
    ("9798554/?format=tif", "8a4318ac713b4cf50c3314760da41ab7653e10e90531ecd0c787f1386857a4ef") ].

(** A dictionary display: later items overwrite earlier ones. *)
Definition dict (items : list (string * string)) : gmap string string :=
  foldl (λ m kv, <[kv.1 := kv.2]> m) ∅ items.

Definition registry : gmap string string := dict registry_items.

Definition APERIO_REPO_URL : string :=
  "http://openslide.cs.cmu.edu/download/openslide-testdata/Aperio".
Definition TCGA_REPO_URL : string := "https://api.gdc.cancer.gov/data".
Definition IDR_REPO_URL : string :=
  "https://idr.openmicroscopy.org/webclient/render_image_download".

Definition registry_urls_items : list (string * string) :=
  [ ("histolab/broken.svs", "https://raw.githubusercontent.com/histolab/histolab/master/tests/fixtures/svs-images/broken.svs");
    ("histolab/kidney.png", "https://user-images.githubusercontent.com/4196091/100275351-132cc880-2f60-11eb-8cc8-7a3bf3723260.png");
    ("aperio/JP2K-33003-1.svs", APERIO_REPO_URL +:+ "/JP2K-33003-1.svs");
    ("aperio/JP2K-33003-2.svs", APERIO_REPO_URL +:+ "/JP2K-33003-2.svs");
    ("tcga/breast/TCGA-A8-A082-01A-01-TS1.3cad4a77-47a6-4658-becf-d8cffa161d3a.svs", TCGA_REPO_URL +:+ "/ad9ed74a-2725-49e6-bf7a-ef100e299989");
    ("tcga/breast/TCGA-A1-A0SH-01Z-00-DX1.90E71B08-E1D9-4FC2-85AC-062E56DDF17C.svs", TCGA_REPO_URL +:+ "/3845b8bd-cbe0-49cf-a418-a8120f6c23db");
    ("tcga/breast/31e248bf-ee24-4d18-bccb-47046fccb461", TCGA_REPO_URL +:+ "/31e248bf-ee24-4d18-bccb-47046fccb461");
    ("tcga/prostate/6b725022-f1d5-4672-8c6c-de8140345210", TCGA_REPO_URL +:+ "/6b725022-f1d5-4672-8c6c-de8140345210");
    ("tcga/ovarian/b777ec99-2811-4aa4-9568-13f68e380c86", TCGA_REPO_URL +:+ "/b777ec99-2811-4aa4-9568-13f68e380c86");
    ("9798433/?format=tif", IDR_REPO_URL +:+ "/9798433/?format=tif");
    ("9798554/?format=tif", IDR_REPO_URL +:+ "/9798554/?format=tif") ].

Definition registry_urls : gmap string string := dict registry_urls_items.

(** [d[k]]: a missing key raises [KeyError]. *)
Definition getitem (d : gmap string string) (k : string) : result string :=
  match d !! k with
  | Some v => Ok v
  | None => Raise (KeyError k)
  end.

(** The dictionary comprehension
    [{("data/" + filename): registry["data/" + filename] for filename in legacy_datasets}]. *)
Fixpoint legacy_comprehension (acc : gmap string string) (fs : list string)
  : result (gmap string string) :=
  match fs with
  | [] => Ok acc
  | filename :: fs' =>
      v ← getitem registry ("data/" +:+ filename);
      legacy_comprehension (<["data/" +:+ filename := v]> acc) fs'
  end.

Definition legacy_registry : result (gmap string string) :=
  legacy_comprehension ∅ legacy_datasets.

End Registry.

(** ** External collaborators: numpy's generators and the HTTP client *)

(** numpy's [RandomState]: the state of a generator, the generator a seed
    builds, and the two draws the program uses with their documented
    contracts ([permutation(n)] is a permutation of [range(n)];
    [randint(low, high)] lies in the half-open range [low, high)).

    With them, the one floating-point computation of the split:
    [ceil_mul test_size n] is [ceil(test_size * n)] as binary64 arithmetic
    computes it, [test_size] being the value of the float. The product is
    rounded before [ceil], so the result can differ from the exact ceiling
    ([0.28 * 25] is [7.000000000000001] and gives 8); what is certain is
    that a positive fraction of at least one sample gives at least one. *)
Class Numpy := {
  RandomState : Type;
  seed_state : Z → RandomState;
  permutation : RandomState → nat → list nat;
  randint : RandomState → Z → Z → Z * RandomState;
  ceil_mul : Q → nat → nat;
  permutation_perm : ∀ g n, permutation g n ≡ₚ seq 0 n;
  randint_range : ∀ g lo hi, (lo < hi)%Z →
    (lo ≤ (randint g lo hi).1 < hi)%Z;
  ceil_mul_pos : ∀ test_size n, (0 < test_size)%Q → (0 < n)%nat →
    (1 ≤ ceil_mul test_size n)%nat
}.

(** [requests.get(url).content]; [None] when the transport raises. *)
Class Requests := { requests_get : string → option string }.

(** The operating system under [dataset_dir]. A directory is given by the
    entries [os.listdir] returns, each with its contents.
    [listdir_error] is the exception [os.listdir(dataset_dir)] raises,
    [None] for a directory that can be listed.
    [open_write entries name content] is the outcome of
    [with open(os.path.join(dataset_dir, name), "wb") as f: f.write(content)]
    in a directory with these entries: the entries afterwards, and the
    exception if [open] or [write] raised.

    What the name resolves to is the system's business when it holds a
    path separator ([./a] is the entry [a], [sub/a] is no entry of the
    directory, [../a] and [/a] lie outside of it). For a name without
    separator the contract is that of a POSIX file system with
    case-sensitive names: a write that raises nothing binds the entry
    of that name to the content; one that raises on a name that was absent
    leaves the entries as they were ([open] failed) or leaves a file of that
    name with what was written before the failure. *)
Inductive write_outcome : Type :=
  | Written (entries : gmap string string)
  | WriteRaised (e : exn) (entries : gmap string string).

Class Os := {
  listdir_error : option exn;
  open_write : gmap string string → string → string → write_outcome;
  open_write_plain : ∀ entries name content entries',
    "/"%char ∉ Py.chars name →
    open_write entries name content = Written entries' →
    entries' = <[name := content]> entries;
  open_write_raised : ∀ entries name content e entries',
    "/"%char ∉ Py.chars name → entries !! name = None →
    open_write entries name content = WriteRaised e entries' →
    entries' = entries ∨ ∃ partial, entries' = <[name := partial]> entries
}.

(** ** Data frames *)

(** A row maps a column to its value; a column of the frame that the row
    does not bind holds NaN. Rows are identified by their position. *)
Record DataFrame := {
  columns : list string;
  rows : list (gmap string string)
}.

(** The representation invariant of a frame: a row binds only columns of
    the frame. *)
Definition wf (df : DataFrame) : Prop :=
  Forall (λ r : gmap string string,
            Forall (λ c, c ∈ columns df) (map_to_list r).*1) (rows df).

Global Instance wf_dec (df : DataFrame) : Decision (wf df).
Proof. unfold wf. apply _. Defined.

(** The non-null values a column holds, one per row, in row order. *)
Definition column_values (df : DataFrame) (col : string) : list string :=
  omap (λ r, r !! col) (rows df).

Module Pd.

(** [Series.unique()]: values in order of first appearance. *)
Fixpoint unique_from {A} `{EqDecision A} (seen : list A) (l : list A) : list A :=
  match l with
  | [] => []
  | x :: l' =>
      if decide (x ∈ seen) then unique_from seen l'
      else x :: unique_from (x :: seen) l'
  end.

Definition unique {A} `{EqDecision A} (l : list A) : list A := unique_from [] l.

(** [df.groupby(by)[col].unique().apply(list)]: one entry per non-null
    value of [by] (rows whose [by] is NaN are left out), keys sorted, each
    with the distinct values of [col] (NaN included) in its group. *)
Definition groupby_unique (df : DataFrame) (by_col col : string)
  : result (list (string * list (option string))) :=
  if decide (by_col ∈ columns df) then
    if decide (col ∈ columns df) then
      let keys := merge_sort String.le (unique (omap (λ r, r !! by_col) (rows df))) in
      Ok (map (λ k, (k, unique (map (λ r, r !! col)
                                   (filter (λ r, r !! by_col = Some k) (rows df)))))
              keys)
    else Raise (KeyError col)
  else Raise (KeyError by_col).

(** [df[col].isin(values)]: the boolean mask; NaN is in no list of
    identifiers. *)
Definition isin_row (col : string) (values : list string)
    (r : gmap string string) : bool :=
  match r !! col with
  | Some v => bool_decide (v ∈ values)
  | None => false
  end.

Definition isin (df : DataFrame) (col : string) (values : list string) : list bool :=
  map (isin_row col values) (rows df).

(** Rows selected by a boolean mask. *)
Fixpoint select {A} (mask : list bool) (l : list A) : list A :=
  match mask, l with
  | b :: mask', x :: l' => if b then x :: select mask' l' else select mask' l'
  | _, _ => []
  end.

(** [df.loc[mask]]. *)
Definition loc (df : DataFrame) (mask : list bool) : DataFrame :=
  {| columns := columns df; rows := select mask (rows df) |}.

(** [left.join(other, on=col)] where [other] is indexed by string keys:
    a left join. A left row without match is kept once, the columns of
    [other] NaN; a left row with k matches yields k rows; rows of
    [other] that no left row matches are left out. *)
Definition join_row (other : list (string * gmap string string))
    (on : string) (r : gmap string string) : list (gmap string string) :=
  match filter (λ o, r !! on = Some o.1) other with
  | [] => [r]
  | ms => map (λ o, r ∪ o.2) ms
  end.

Definition join (left : DataFrame) (other_columns : list string)
    (other : list (string * gmap string string)) (on : string) : result DataFrame :=
  if decide (on ∈ columns left) then
    if decide (Exists (λ c, c ∈ columns left) other_columns)
    then Raise (ValueError "columns overlap but no suffix specified")
    else Ok {| columns := columns left ++ other_columns;
               rows := mbind (join_row other on) (rows left) |}
  else Raise (KeyError on).

End Pd.

(** ** scikit-learn's [train_test_split] *)

Module Sk.
Section Sk.
Context `{Numpy}.

(** [check_random_state]: [None] is numpy's global generator, an int
    builds a fresh generator, and numpy refuses seeds outside
    [0, 2**32 - 1]. *)
Definition check_random_state (global : RandomState) (seed : option Z)
  : result RandomState :=
  match seed with
  | None => Ok global
  | Some s =>
      if decide (0 ≤ s < 2 ^ 32)%Z then Ok (seed_state s)
      else Raise (ValueError "Seed must be between 0 and 2**32 - 1")
  end.

(** [_validate_shuffle_split] for a float [test_size] and no
    [train_size]: [n_test = ceil(test_size * n_samples)] in floating
    point, [n_train = n_samples - n_test]. The fraction is given by the
    value of the float; comparing it with 0 and 1 is exact. A split that
    leaves no sample for training is refused. *)
Definition validate_shuffle_split (n_samples : nat) (test_size : Q)
  : result (nat * nat) :=
  if Qle_bool test_size 0 || Qle_bool 1 test_size
  then Raise (ValueError "test_size should be in the (0, 1) range")
  else
    let n_test := ceil_mul test_size n_samples in
    let n_train := n_samples - n_test in
    if decide (n_train = 0)
    then Raise (ValueError "the resulting train set will be empty")
    else Ok (n_train, n_test).

(** [arr[indices]]. *)
Definition index_array {A} (arr : list A) (indices : list nat) : list A :=
  omap (λ i, arr !! i) indices.

(** [train_test_split(arr, test_size=.., random_state=..)], without
    [stratify]: the first [n_test] indices of the generator's
    permutation are the test set, the next [n_train] the train set. *)
Definition train_test_split {A} (global : RandomState) (arr : list A)
    (test_size : Q) (random_state : option Z) : result (list A * list A) :=
  '(n_train, n_test) ← validate_shuffle_split (length arr) test_size;
  rng ← check_random_state global random_state;
  let p := permutation rng (length arr) in
  let ind_test := take n_test p in
  let ind_train := take n_train (drop n_test p) in
  Ok (index_array arr ind_train, index_array arr ind_test).

End Sk.
End Sk.

(** ** The GTEx example ([examples/GTEx/extract_tile_PW_GTEx.py]) *)

Module GTEx.

Definition URL_ROOT : string := "https://brd.nci.nih.gov/brd/imagedownload".

(** [f"{URL_ROOT}/{sample_id}"]. *)
Definition url_of (sample_id : string) : string :=
  URL_ROOT +:+ "/" +:+ sample_id.

(** A sample id that is a plain file name: it holds no path separator. *)
Definition plain (sample_id : string) : Prop := "/"%char ∉ Py.chars sample_id.

Global Instance plain_dec (sample_id : string) : Decision (plain sample_id).
Proof. unfold plain. apply _. Defined.

(** What one iteration of the download loop did. *)
Inductive event : Type :=
  | Fetch (url : string)
  | Sleep (seconds : Z).

Global Instance event_eq_dec : EqDecision event.
Proof. solve_decision. Defined.

(** The URLs fetched and the delays slept in a stretch of the log, in
    order. *)
Definition fetched (entries : list (string * list event)) : list string :=
  entries ≫= λ entry,
    omap (λ ev, match ev with Fetch url => Some url | Sleep _ => None end) entry.2.

Definition slept (entries : list (string * list event)) : list Z :=
  entries ≫= λ entry,
    omap (λ ev, match ev with Sleep d => Some d | Fetch _ => None end) entry.2.

(** All the fetches and sleeps of a stretch of the log, in order. *)
Definition events (entries : list (string * list event)) : list event :=
  entries ≫= λ entry, entry.2.

Section GTEx.
Context `{Numpy} `{Requests} `{Os}.

(** The process state the retriever acts on: the entries of
    [dataset_dir] with their contents, numpy's global generator, and the
    log of the loop, one entry per iteration (the sample id and the
    fetches and sleeps of that iteration, in order). *)
Record World := {
  files : gmap string string;
  np_global : RandomState;
  log : list (string * list event)
}.

(** [os.listdir(dataset_dir)]. *)
Definition listdir (w : World) : list string := (map_to_list (files w)).*1.

(** The body of the loop of [download_wsi_gtex] for one [sample_id]. The
    directory is listed, and an exception of the listing stops the loop. If
    [{sample_id}.svs] is among the entries nothing is done. Otherwise the
    URL is fetched, the content is written through
    [open(os.path.join(dataset_dir, f"{sample_id}.svs"), "wb")], to
    whatever that path resolves to, and, nothing having raised, a delay
    drawn from numpy's global generator is slept. An exception of the
    fetch, of [open] or of [write] leaves the iteration before the
    sleep. *)
Definition download_step (w : World) (sample_id : string) : World * option exn :=
  if listdir_error is Some e then
    ({| files := files w; np_global := np_global w;
        log := log w ++ [(sample_id, [])] |}, Some e)
  else if decide (sample_id +:+ ".svs" ∈ listdir w) then
    ({| files := files w; np_global := np_global w;
        log := log w ++ [(sample_id, [])] |}, None)
  else
    let url := url_of sample_id in
    match requests_get url with
    | None =>
        ({| files := files w; np_global := np_global w;
            log := log w ++ [(sample_id, [Fetch url])] |},
         Some (ConnectionError url))
    | Some content =>
        match open_write (files w) (sample_id +:+ ".svs") content with
        | WriteRaised e entries =>
            ({| files := entries; np_global := np_global w;
                log := log w ++ [(sample_id, [Fetch url])] |}, Some e)
        | Written entries =>
            let '(seconds, g) := randint (np_global w) 60 100 in
            ({| files := entries; np_global := g;
                log := log w ++ [(sample_id, [Fetch url; Sleep seconds])] |},
             None)
        end
    end.

(** [download_wsi_gtex(dataset_dir, sample_ids)]: the final state and the
    exception that stopped the loop, if any. *)
Fixpoint download_wsi_gtex (w : World) (sample_ids : list string)
  : World * option exn :=
  match sample_ids with
  | [] => (w, None)
  | sample_id :: sample_ids' =>
      match download_step w sample_id with
      | (w', None) => download_wsi_gtex w' sample_ids'
      | (w', Some e) => (w', Some e)
      end
  end.

(** What one iteration may log, given the state [w] the loop started in:
    nothing when [{sample_id}.svs] was already there; otherwise nothing, a
    fetch after which the iteration raised, or a fetch followed by a sleep
    of 60 to 99 seconds. *)
Definition iteration_ok (w : World) (entry : string * list event) : Prop :=
  (is_Some (files w !! (entry.1 +:+ ".svs")) → entry.2 = [])
  ∧ (entry.2 = []
     ∨ entry.2 = [Fetch (url_of entry.1)]
     ∨ ∃ d, entry.2 = [Fetch (url_of entry.1); Sleep d] ∧ (60 ≤ d < 100)%Z).

(** [extract_random_tiles]: the prefix handed to [RandomTiler] for a
    slide, and the name of a tile, the prefix followed by whatever the
    tiler appends (tile index, level, coordinates, suffix). *)
Definition prefix (slide_name : string) : string := slide_name +:+ "_".

Definition tile_filename (slide_name tiler_part : string) : string :=
  prefix slide_name +:+ tiler_part.

(** [f.split("_")[0]]; the list [split] returns is never empty. *)
Definition sample_id_of (f : string) : string :=
  default EmptyString (head (Py.split "_" f)).

(** [train_test_df_patient_wise]. *)
Definition train_test_df_patient_wise (global : RandomState)
    (dataset_df : DataFrame) (patient_col label_col : string)
    (test_size : Q) (seed : Z) : result (DataFrame * DataFrame) :=
  patient_with_labels ← Pd.groupby_unique dataset_df patient_col label_col;
  let unique_patients := patient_with_labels.*1 in
  '(train_patients, test_patients) ←
    Sk.train_test_split global unique_patients test_size (Some seed);
  let dataset_train_df :=
    Pd.loc dataset_df (Pd.isin dataset_df patient_col train_patients) in
  let dataset_test_df :=
    Pd.loc dataset_df (Pd.isin dataset_df patient_col test_patients) in
  Ok (dataset_train_df, dataset_test_df).

(** The frame [tiles_filenames_df.set_index("Tissue Sample ID")] built
    from the listing of [tiles_dir]. *)
Definition tiles_filenames (listdir : list string) : list string :=
  filter (λ f, (Py.splitext f).2 = ".png") listdir.

Definition tiles_filenames_df (listdir : list string)
  : list (string * gmap string string) :=
  map (λ f, (sample_id_of f, {["tile_filename" := f]}))
      (tiles_filenames listdir).

(** The joined table [tiles_metadata]. *)
Definition tiles_metadata (listdir : list string) (metadata_df : DataFrame)
  : result DataFrame :=
  Pd.join metadata_df ["tile_filename"] (tiles_filenames_df listdir)
          "Tissue Sample ID".

(** [split_tiles_patient_wise]: the two tables written to
    [train_csv_path] and [test_csv_path]. *)
Definition split_tiles_patient_wise (global : RandomState)
    (listdir : list string) (metadata_df : DataFrame)
    (label_col patient_col : string) (test_size : Q) (seed : Z)
  : result (DataFrame * DataFrame) :=
  tiles_metadata ← tiles_metadata listdir metadata_df;
  train_test_df_patient_wise global tiles_metadata patient_col label_col
                             test_size seed.

End GTEx.
End GTEx.

(** ** A concrete environment

    A small generator and a remote store, to run the model on examples: the
    state is an integer, [permutation] rotates [range(n)] by it, [randint]
    reduces it into the requested range and steps it. *)

Module Demo.

Definition rot_permutation (g : Z) (n : nat) : list nat :=
  drop (Z.to_nat g `mod` S n) (seq 0 n) ++ take (Z.to_nat g `mod` S n) (seq 0 n).

Definition mod_randint (g lo hi : Z) : Z * Z :=
  ((lo + g `mod` (hi - lo))%Z, (g + 1)%Z).

Lemma rot_permutation_perm g n : rot_permutation g n ≡ₚ seq 0 n.
Proof.
  unfold rot_permutation.
  rewrite Permutation_app_comm. by rewrite take_drop.
Qed.

Lemma mod_randint_range g lo hi :
  (lo < hi)%Z → (lo ≤ (mod_randint g lo hi).1 < hi)%Z.
Proof.
  intros Hlt. simpl.
  pose proof (Z.mod_pos_bound g (hi - lo)). lia.
Qed.

(** The exact ceiling stands in for the floating-point one; the two agree
    on the runs below, a fifth of one or of three patients
    ([0.2 * 3] is [0.6000000000000001], and both ceilings are 1). *)
Definition exact_ceil_mul (test_size : Q) (n : nat) : nat :=
  Z.to_nat (Qceiling (test_size * inject_Z (Z.of_nat n))).

Lemma exact_ceil_mul_pos test_size n :
  (0 < test_size)%Q → (0 < n)%nat → (1 ≤ exact_ceil_mul test_size n)%nat.
Proof.
  intros Hts Hn. unfold exact_ceil_mul.
  assert (0 < test_size * inject_Z (Z.of_nat n))%Q as Hpos.
  { apply Qmult_lt_0_compat; [done|]. unfold Qlt. simpl. lia. }
  pose proof (Qlt_le_trans _ _ _ Hpos (Qle_ceiling _)) as Hc.
  unfold Qlt in Hc. simpl in Hc. lia.
Qed.

Definition numpy : Numpy :=
  {| RandomState := Z;
     seed_state := λ s, s;
     permutation := rot_permutation;
     randint := mod_randint;
     ceil_mul := exact_ceil_mul;
     permutation_perm := rot_permutation_perm;
     randint_range := mod_randint_range;
     ceil_mul_pos := exact_ceil_mul_pos |}.

Definition requests : Requests :=
  {| requests_get := λ url, Some ("SVS:" +:+ url) |}.

(** A metadata table: four slides of three patients, the last slide
    without patient id. *)
Definition metadata_row (sample patient tissue : string) : gmap string string :=
  {[ "Tissue Sample ID" := sample; "Subject ID" := patient; "Tissue" := tissue ]}.

Definition metadata : DataFrame :=
  {| columns := ["Tissue Sample ID"; "Subject ID"; "Tissue"];
     rows := [ metadata_row "GTEX-A-1" "GTEX-A" "Lung";
               metadata_row "GTEX-B-1" "GTEX-B" "Liver";
               metadata_row "GTEX-A-2" "GTEX-A" "Liver";
               metadata_row "GTEX-C-1" "GTEX-C" "Lung" ] |}.

Definition orphan_row : gmap string string :=
  {[ "Tissue Sample ID" := "GTEX-D-1"; "Tissue" := "Lung" ]}.

Definition metadata_with_orphan : DataFrame :=
  {| columns := columns metadata; rows := rows metadata ++ [orphan_row] |}.

Definition single_patient : DataFrame :=
  {| columns := columns metadata;
     rows := [ metadata_row "GTEX-A-1" "GTEX-A" "Lung";
               metadata_row "GTEX-A-2" "GTEX-A" "Liver" ] |}.

Definition tiles_listing : list string :=
  [ "GTEX-A-1_tile_0_level2_0-0-512-512.png";
    "GTEX-A-1_tile_1_level2_512-0-1024-512.png";
    "GTEX-B-1_tile_0_level2_0-0-512-512.png";
    "GTEX-Z-9_tile_0_level2_0-0-512-512.png";
    "thumbnail.jpg" ].

(** The joined table of [tiles_listing] and [metadata], and the two tables
    the split of it returns with the generator above. *)
Definition tile_row (sample patient tissue tile : string) : gmap string string :=
  <["tile_filename" := tile]> (metadata_row sample patient tissue).

Definition joined_rows : list (gmap string string) :=
  [ tile_row "GTEX-A-1" "GTEX-A" "Lung" "GTEX-A-1_tile_0_level2_0-0-512-512.png";
    tile_row "GTEX-A-1" "GTEX-A" "Lung" "GTEX-A-1_tile_1_level2_512-0-1024-512.png";
    tile_row "GTEX-B-1" "GTEX-B" "Liver" "GTEX-B-1_tile_0_level2_0-0-512-512.png";
    metadata_row "GTEX-A-2" "GTEX-A" "Liver";
    metadata_row "GTEX-C-1" "GTEX-C" "Lung" ].

Definition joined : DataFrame :=
  {| columns := columns metadata ++ ["tile_filename"]; rows := joined_rows |}.

Definition joined_with_orphan : DataFrame :=
  {| columns := columns metadata ++ ["tile_filename"];
     rows := joined_rows ++ [orphan_row] |}.

Definition train_tiles : DataFrame :=
  {| columns := columns metadata ++ ["tile_filename"];
     rows := take 4 joined_rows |}.

Definition test_tiles : DataFrame :=
  {| columns := columns metadata ++ ["tile_filename"];
     rows := drop 4 joined_rows |}.

(** A system whose directory has no subdirectory: a leading [./] of a
    name is dropped, and a name that still holds a separator cannot be
    opened. *)
Fixpoint strip_dot_slash (name : string) : string :=
  match name with
  | String c (String c' rest) =>
      if decide (c = "."%char ∧ c' = "/"%char) then strip_dot_slash rest else name
  | _ => name
  end.

Definition flat_open_write (entries : gmap string string) (name content : string)
  : write_outcome :=
  if decide ("/"%char ∈ Py.chars (strip_dot_slash name))
  then WriteRaised (OSError "No such file or directory") entries
  else Written (<[strip_dot_slash name := content]> entries).

Lemma strip_dot_slash_plain name :
  "/"%char ∉ Py.chars name → strip_dot_slash name = name.
Proof.
  destruct name as [|c [|c' rest]]; [done..|]. intros Hplain.
  change (strip_dot_slash (String c (String c' rest)))
    with (if decide (c = "."%char ∧ c' = "/"%char)
          then strip_dot_slash rest else String c (String c' rest)).
  destruct (decide (c = "."%char ∧ c' = "/"%char)) as [[-> ->]|]; [|done].
  destruct Hplain. right. left.
Qed.

Lemma flat_open_write_plain entries name content entries' :
  "/"%char ∉ Py.chars name →
  flat_open_write entries name content = Written entries' →
  entries' = <[name := content]> entries.
Proof.
  intros Hplain. unfold flat_open_write.
  rewrite strip_dot_slash_plain by done.
  destruct (decide _); [done|]. by intros [= <-].
Qed.

Lemma flat_open_write_raised entries name content e entries' :
  "/"%char ∉ Py.chars name → entries !! name = None →
  flat_open_write entries name content = WriteRaised e entries' →
  entries' = entries ∨ ∃ partial, entries' = <[name := partial]> entries.
Proof.
  intros Hplain _. unfold flat_open_write.
  destruct (decide _); [|done]. intros [= _ <-]. by left.
Qed.

Definition posix : Os :=
  {| listdir_error := None;
     open_write := flat_open_write;
     open_write_plain := flat_open_write_plain;
     open_write_raised := flat_open_write_raised |}.

(** A directory that already holds one slide, and the run of the
    retriever on two sample ids from it. *)
Definition world : GTEx.World (H := numpy) :=
  GTEx.Build_World (H := numpy) {[ "GTEX-A-1.svs" := "old bytes" ]} 5%Z [].

Definition world_after : GTEx.World (H := numpy) :=
  GTEx.Build_World (H := numpy)
    {[ "GTEX-A-1.svs" := "old bytes";
       "GTEX-B-1.svs" := "SVS:https://brd.nci.nih.gov/brd/imagedownload/GTEX-B-1" ]}
    6%Z
    [ ("GTEX-A-1", []);
      ("GTEX-B-1",
       [ GTEx.Fetch "https://brd.nci.nih.gov/brd/imagedownload/GTEX-B-1";
         GTEx.Sleep 65 ]) ].

(** The state after a run over a list that names a sample twice. *)
Definition world_after_repeat : GTEx.World (H := numpy) :=
  GTEx.Build_World (H := numpy)
    {[ "GTEX-A-1.svs" := "old bytes";
       "GTEX-B-1.svs" := "SVS:https://brd.nci.nih.gov/brd/imagedownload/GTEX-B-1" ]}
    6%Z
    [ ("GTEX-B-1",
       [ GTEx.Fetch "https://brd.nci.nih.gov/brd/imagedownload/GTEX-B-1";
         GTEx.Sleep 65 ]);
      ("GTEX-A-1", []);
      ("GTEX-B-1", []) ].

(** A remote store that cannot be reached, and the state the retriever
    stops in when it starts from [world] with it. *)
Definition offline : Requests := {| requests_get := λ url, None |}.

Definition world_failed : GTEx.World (H := numpy) :=
  GTEx.Build_World (H := numpy)
    {[ "GTEX-A-1.svs" := "old bytes" ]}
    5%Z
    [ ("GTEX-A-1", []);
      ("GTEX-B-1",
       [ GTEx.Fetch "https://brd.nci.nih.gov/brd/imagedownload/GTEX-B-1" ]) ].

(** The state after a run that names the slide already there as
    [./GTEX-A-1] as well. *)
Definition world_overwritten : GTEx.World (H := numpy) :=
  GTEx.Build_World (H := numpy)
    {[ "GTEX-A-1.svs" := "SVS:https://brd.nci.nih.gov/brd/imagedownload/./GTEX-A-1" ]}
    6%Z
    [ ("GTEX-A-1", []);
      ("./GTEX-A-1",
       [ GTEx.Fetch "https://brd.nci.nih.gov/brd/imagedownload/./GTEX-A-1";
         GTEx.Sleep 65 ]) ].

End Demo.

(** Closed decidable facts about the examples are settled by evaluation. *)
Ltac by_evaluation :=
  match goal with
  | |- ?P => apply (bool_decide_unpack P); vm_compute; exact I
  end.

(** ** Registry consistency *)

Lemma dict_lookup_keys (items : list (string * string)) (k : string) :
  is_Some (Registry.dict items !! k) ↔ k ∈ items.*1.
Proof.
  unfold Registry.dict.
  cut (∀ m : gmap string string,
          is_Some (foldl (λ m kv, <[kv.1 := kv.2]> m) m items !! k)
          ↔ is_Some (m !! k) ∨ k ∈ items.*1).
  { intros H. rewrite H, lookup_empty, is_Some_alt. set_solver. }
  induction items as [|[k' v'] items IH]; intros m; simpl.
  - set_solver.
  - rewrite IH, lookup_insert_is_Some', elem_of_cons. naive_solver.
Qed.

(** C10. Every key of [registry_urls] is a key of [registry], and building
    [legacy_registry] succeeds with a dictionary that maps
    ["data/" + filename], for every [filename] of [legacy_datasets], to the
    hash [registry] holds for that key. *)
Theorem registry_consistent :
  (∀ k : string, is_Some (Registry.registry_urls !! k) →
                 is_Some (Registry.registry !! k))
  ∧ ∃ legacy : gmap string string,
      Registry.legacy_registry = Ok legacy
      ∧ ∀ filename : string, filename ∈ Registry.legacy_datasets →
          is_Some (legacy !! ("data/" +:+ filename))
          ∧ legacy !! ("data/" +:+ filename)
            = Registry.registry !! ("data/" +:+ filename).
Proof.
  split.
  - intros k. unfold Registry.registry_urls, Registry.registry.
    rewrite !dict_lookup_keys.
    assert (Hkeys : Forall (λ k, k ∈ Registry.registry_items.*1)
                           Registry.registry_urls_items.*1) by by_evaluation.
    rewrite Forall_forall in Hkeys. apply Hkeys.
  - assert (Hreg : Registry.registry !! "data/cmu_small_region.svs"
                   = Some "ed92d5a9f2e86df67640d6f92ce3e231419ce127131697fbbce42ad5e002c8a7").
    { unfold Registry.registry, Registry.dict. simpl.
      repeat (rewrite lookup_insert_ne by discriminate).
      apply lookup_insert_eq. }
    eexists. split.
    + unfold Registry.legacy_registry, Registry.legacy_datasets.
      unfold Registry.legacy_comprehension, Registry.getitem.
      change ("data/" +:+ "cmu_small_region.svs") with "data/cmu_small_region.svs".
      rewrite Hreg. reflexivity.
    + intros filename Hin. apply list_elem_of_singleton in Hin as ->.
      change ("data/" +:+ "cmu_small_region.svs") with "data/cmu_small_region.svs".
      rewrite Hreg, lookup_insert_eq. eauto.
Qed.

(** ** The filename convention *)

Lemma split_head_cons (sep c : ascii) (s : string) :
  c ≠ sep →
  head (Py.split sep (String c s))
  = Some (String c (default EmptyString (head (Py.split sep s)))).
Proof.
  intros Hne. simpl. rewrite decide_False by done.
  by destruct (Py.split sep s).
Qed.

Lemma split_head_sep (sep : ascii) (s : string) :
  head (Py.split sep (String sep s)) = Some EmptyString.
Proof. simpl. by rewrite decide_True. Qed.

Lemma split_nonempty (sep : ascii) (s : string) : is_Some (head (Py.split sep s)).
Proof.
  destruct s as [|c s]; [by eexists|].
  destruct (decide (c = sep)) as [->|Hne].
  - rewrite split_head_sep. by eexists.
  - rewrite split_head_cons by done. by eexists.
Qed.

Lemma sample_id_of_prefix (name rest : string) :
  "_"%char ∉ Py.chars name →
  GTEx.sample_id_of (name +:+ String "_" rest) = name.
Proof.
  unfold GTEx.sample_id_of.
  induction name as [|c name IH]; simpl; intros Hnot.
  - done.
  - apply not_elem_of_cons in Hnot as [Hc Hname].
    rewrite decide_False by done.
    specialize (IH Hname).
    destruct (Py.split "_" (name +:+ String "_" rest)); simpl in *; by subst.
Qed.

Lemma sample_id_of_no_sep (f : string) : "_"%char ∉ Py.chars (GTEx.sample_id_of f).
Proof.
  unfold GTEx.sample_id_of.
  induction f as [|c f IH]; simpl.
  - apply not_elem_of_nil.
  - destruct (decide (c = "_"%char)) as [->|Hne]; simpl.
    + apply not_elem_of_nil.
    + destruct (Py.split "_" f); simpl in *.
      * apply not_elem_of_cons. split; [done|apply not_elem_of_nil].
      * by apply not_elem_of_cons.
Qed.

Lemma tile_filename_unfold (name part : string) :
  GTEx.tile_filename name part = name +:+ String "_" part.
Proof.
  unfold GTEx.tile_filename, GTEx.prefix.
  induction name as [|c name IH]; [done|].
  change (String c ((name +:+ "_") +:+ part) = String c (name +:+ String "_" part)).
  by f_equal.
Qed.

(** C6 (as amended). For every slide name and every tile name the tiler
    builds from the slide's prefix, the substring before the first ['_'] of
    the tile name is the slide name exactly when the slide name holds no
    ['_']. *)
Theorem sample_id_roundtrip_iff (slide_name tiler_part : string) :
  GTEx.sample_id_of (GTEx.tile_filename slide_name tiler_part) = slide_name
  ↔ "_"%char ∉ Py.chars slide_name.
Proof.
  rewrite tile_filename_unfold. split.
  - intros <-. apply sample_id_of_no_sep.
  - apply sample_id_of_prefix.
Qed.

Lemma sample_id_roundtrip_iff_witness :
  GTEx.sample_id_of
    (GTEx.tile_filename "GTEX-1117F-0126" "tile_0_level2_0-0-512-512.png")
  = "GTEX-1117F-0126".
Proof.
  apply (sample_id_roundtrip_iff "GTEX-1117F-0126" "tile_0_level2_0-0-512-512.png").
  by_evaluation.
Defined.

(** C6 fails for a slide whose name holds the separator: the tiles of
    [GTEX_1117F.svs] are attributed to the sample id [GTEX]. *)
Lemma sample_id_roundtrip_counterexample :
  GTEx.sample_id_of
    (GTEx.tile_filename "GTEX_1117F" "tile_0_level2_0-0-512-512.png")
  = "GTEX"
  ∧ GTEx.sample_id_of
      (GTEx.tile_filename "GTEX_1117F" "tile_0_level2_0-0-512-512.png")
    ≠ "GTEX_1117F".
Proof. split; [reflexivity | discriminate]. Qed.

(** ** Lists: [unique], masks, fancy indexing *)

Section ListFacts.
Context {A : Type} `{EqDecision A}.
Implicit Types l seen : list A.

Lemma elem_of_unique_from seen l x :
  x ∈ Pd.unique_from seen l ↔ x ∈ l ∧ x ∉ seen.
Proof.
  revert seen. induction l as [|y l IH]; intros seen; simpl.
  - set_solver.
  - destruct (decide (y ∈ seen)) as [Hin|Hnin].
    + rewrite IH, elem_of_cons. naive_solver.
    + rewrite !elem_of_cons, IH, not_elem_of_cons.
      destruct (decide (x = y)); naive_solver.
Qed.

Lemma NoDup_unique_from seen l : NoDup (Pd.unique_from seen l).
Proof.
  revert seen. induction l as [|y l IH]; intros seen; simpl.
  - constructor.
  - destruct (decide (y ∈ seen)); [apply IH|].
    constructor; [|apply IH].
    rewrite elem_of_unique_from. set_solver.
Qed.

Lemma elem_of_unique l x : x ∈ Pd.unique l ↔ x ∈ l.
Proof. unfold Pd.unique. rewrite elem_of_unique_from. set_solver. Qed.

Lemma NoDup_unique l : NoDup (Pd.unique l).
Proof. apply NoDup_unique_from. Qed.

Lemma select_map (f : A → bool) l :
  Pd.select (map f l) l = filter (λ x, f x = true) l.
Proof.
  induction l as [|x l IH]; simpl; [done|].
  rewrite filter_cons, IH.
  destruct (f x); by rewrite ?decide_True, ?decide_False by done.
Qed.

Lemma index_array_shift l (k : nat) :
  omap (λ i, l !! (i - k)) (seq k (length l)) = l.
Proof.
  revert k. induction l as [|x l IH]; intros k; simpl; [done|].
  replace (k - k) with 0 by lia. simpl. f_equal.
  rewrite <- (IH (S k)) at 2.
  apply list_omap_ext, Forall2_same_length_lookup_2; [done|].
  intros i a b Ha Hb. rewrite Ha in Hb. injection Hb as <-.
  apply lookup_seq in Ha as [-> _].
  replace (S k + i - k) with (S i) by lia.
  replace (S k + i - S k) with i by lia. done.
Qed.

Lemma index_array_range l : Sk.index_array l (seq 0 (length l)) = l.
Proof.
  unfold Sk.index_array. etrans; [|apply (index_array_shift l 0)].
  apply list_omap_ext, Forall2_same_length_lookup_2; [done|].
  intros i a b Ha Hb. rewrite Ha in Hb. injection Hb as <-.
  by rewrite Nat.sub_0_r.
Qed.

End ListFacts.

(** ** The patient-wise splitter *)

Section Splitter.
Context `{Numpy}.

Lemma groupby_unique_keys df by_col col pwl :
  Pd.groupby_unique df by_col col = Ok pwl →
  by_col ∈ columns df ∧ col ∈ columns df
  ∧ pwl.*1 = merge_sort String.le (Pd.unique (column_values df by_col)).
Proof.
  unfold Pd.groupby_unique. intros Hg.
  destruct (decide (by_col ∈ columns df)); [|done].
  destruct (decide (col ∈ columns df)); [|done].
  injection Hg as <-. split_and!; [done..|].
  unfold column_values.
  generalize (merge_sort String.le
                (Pd.unique (omap (λ r : gmap string string, r !! by_col) (rows df)))).
  intros keys. induction keys; simpl; by f_equal.
Qed.

Lemma groupby_unique_keys_perm df by_col col pwl :
  Pd.groupby_unique df by_col col = Ok pwl →
  pwl.*1 ≡ₚ Pd.unique (column_values df by_col).
Proof.
  intros (_ & _ & ->)%groupby_unique_keys. apply merge_sort_Permutation.
Qed.

Lemma validate_shuffle_split_sizes n test_size n_train n_test :
  Sk.validate_shuffle_split n test_size = Ok (n_train, n_test) →
  n_train ≠ 0 ∧ n_train = n - n_test.
Proof.
  unfold Sk.validate_shuffle_split. intros Hv.
  destruct (Qle_bool test_size 0 || Qle_bool 1 test_size); [done|].
  destruct (decide (_ = 0)); [done|]. by injection Hv as <- <-.
Qed.

Lemma train_test_split_perm {A} g (arr : list A) test_size random_state tr te :
  Sk.train_test_split g arr test_size random_state = Ok (tr, te) →
  te ++ tr ≡ₚ arr.
Proof.
  unfold Sk.train_test_split. intros Hs.
  destruct (Sk.validate_shuffle_split (length arr) test_size)
    as [[n_train n_test]|] eqn:Hv; [|done].
  apply validate_shuffle_split_sizes in Hv as [Hne ->].
  simpl in Hs.
  destruct (Sk.check_random_state g random_state) as [rng|]; [|done].
  simpl in Hs. injection Hs as <- <-.
  pose proof (permutation_perm rng (length arr)) as Hp.
  assert (Hlen : length (permutation rng (length arr)) = length arr).
  { by rewrite (Permutation_length Hp), length_seq. }
  rewrite (take_ge (drop _ _)) by (rewrite length_drop; lia).
  unfold Sk.index_array. rewrite <- omap_app, take_drop, Hp.
  apply reflexive_eq, index_array_range.
Qed.

(** What a successful call computed: the two patient lists partition the
    unique patient ids, and each output is the input filtered by one. *)
Lemma train_test_df_patient_wise_inv g df patient_col label_col test_size seed tr te :
  GTEx.train_test_df_patient_wise g df patient_col label_col test_size seed
  = Ok (tr, te) →
  ∃ train_patients test_patients : list string,
    test_patients ++ train_patients ≡ₚ Pd.unique (column_values df patient_col)
    ∧ tr = Pd.loc df (Pd.isin df patient_col train_patients)
    ∧ te = Pd.loc df (Pd.isin df patient_col test_patients).
Proof.
  unfold GTEx.train_test_df_patient_wise. intros Hs.
  destruct (Pd.groupby_unique df patient_col label_col) as [pwl|] eqn:Hg; [|done].
  simpl in Hs.
  destruct (Sk.train_test_split g pwl.*1 test_size (Some seed))
    as [[trp tep]|] eqn:Ht; [|done].
  simpl in Hs. injection Hs as <- <-.
  exists trp, tep. split_and!; [|done..].
  rewrite (train_test_split_perm _ _ _ _ _ _ Ht).
  by eapply groupby_unique_keys_perm.
Qed.

Lemma rows_loc_isin df col values :
  rows (Pd.loc df (Pd.isin df col values))
  = filter (λ r, Pd.isin_row col values r = true) (rows df).
Proof. apply select_map. Qed.

Lemma elem_of_column_values_loc df col values x :
  x ∈ column_values (Pd.loc df (Pd.isin df col values)) col → x ∈ values.
Proof.
  unfold column_values. rewrite rows_loc_isin, list_elem_of_omap.
  intros (r & [Hr _]%list_elem_of_filter & Hx).
  unfold Pd.isin_row in Hr. rewrite Hx in Hr. by apply bool_decide_eq_true in Hr.
Qed.

Lemma split_patients_disjoint g df patient_col label_col test_size seed tr te :
  GTEx.train_test_df_patient_wise g df patient_col label_col test_size seed
  = Ok (tr, te) →
  column_values tr patient_col ## column_values te patient_col.
Proof.
  intros (trp & tep & Hperm & -> & ->)%train_test_df_patient_wise_inv.
  intros x Htr%elem_of_column_values_loc Hte%elem_of_column_values_loc.
  assert (Hnd : NoDup (tep ++ trp)) by (rewrite Hperm; apply NoDup_unique).
  apply NoDup_app in Hnd as (_ & Hdisj & _). by eapply Hdisj.
Qed.

End Splitter.

(** C1. Whenever [train_test_df_patient_wise] returns, no patient id of a
    row of the train table is the patient id of a row of the test table. *)
Theorem train_test_patients_disjoint `{Numpy} (g : RandomState) (df : DataFrame)
    (patient_col label_col : string) (test_size : Q) (seed : Z)
    (tr te : DataFrame) :
  GTEx.train_test_df_patient_wise g df patient_col label_col test_size seed
  = Ok (tr, te) →
  ∀ r1 r2 p, r1 ∈ rows tr → r2 ∈ rows te →
             r1 !! patient_col = Some p → r2 !! patient_col ≠ Some p.
Proof.
  intros Hs r1 r2 p Hr1 Hr2 Hp1 Hp2.
  apply (split_patients_disjoint _ _ _ _ _ _ _ _ Hs p);
    unfold column_values; rewrite list_elem_of_omap; eauto.
Qed.

Lemma train_test_patients_disjoint_witness :
  let train :=
    {| columns := columns Demo.metadata;
       rows := [ Demo.metadata_row "GTEX-A-1" "GTEX-A" "Lung";
                 Demo.metadata_row "GTEX-B-1" "GTEX-B" "Liver";
                 Demo.metadata_row "GTEX-A-2" "GTEX-A" "Liver" ] |} in
  let test :=
    {| columns := columns Demo.metadata;
       rows := [ Demo.metadata_row "GTEX-C-1" "GTEX-C" "Lung" ] |} in
  GTEx.train_test_df_patient_wise (H := Demo.numpy) 0%Z Demo.metadata
    "Subject ID" "Tissue" (1 # 5) 1234%Z = Ok (train, test)
  ∧ Demo.metadata_row "GTEX-C-1" "GTEX-C" "Lung" !! "Subject ID" ≠ Some "GTEX-A".
Proof.
  intros train test.
  assert (Hrun : GTEx.train_test_df_patient_wise (H := Demo.numpy) 0%Z Demo.metadata
                   "Subject ID" "Tissue" (1 # 5) 1234%Z = Ok (train, test))
    by (vm_compute; reflexivity).
  split; [exact Hrun|].
  apply (train_test_patients_disjoint (H := Demo.numpy) 0%Z Demo.metadata
           "Subject ID" "Tissue" (1 # 5) 1234%Z train test Hrun
           (Demo.metadata_row "GTEX-A-1" "GTEX-A" "Lung")
           (Demo.metadata_row "GTEX-C-1" "GTEX-C" "Lung") "GTEX-A").
  - left.
  - left.
  - vm_compute; reflexivity.
Defined.

(** ** Coverage of the split *)

Lemma filter_partition_perm {A} (f g h : A → bool) (l : list A) :
  (∀ x, x ∈ l → if h x then g x = negb (f x) else f x = false ∧ g x = false) →
  filter (λ x, f x = true) l ++ filter (λ x, g x = true) l
  ≡ₚ filter (λ x, h x = true) l.
Proof.
  induction l as [|x l IH]; intros Hl; [done|].
  rewrite !filter_cons.
  pose proof (Hl x ltac:(left)) as Hx.
  assert (IH' := IH (λ y Hy, Hl y ltac:(by right))).
  destruct (h x), (f x), (g x); simpl in Hx; try done;
    repeat (rewrite decide_True by done);
    repeat (rewrite decide_False by done); simpl; try by f_equiv.
  - by rewrite <- Permutation_middle, IH'.
  - by destruct Hx.
  - by destruct Hx.
  - by destruct Hx.
Qed.

Section Coverage.
Implicit Types (df : DataFrame) (r : gmap string string).

Lemma isin_row_partition df patient_col train_patients test_patients r :
  test_patients ++ train_patients ≡ₚ Pd.unique (column_values df patient_col) →
  r ∈ rows df →
  if bool_decide (is_Some (r !! patient_col))
  then Pd.isin_row patient_col test_patients r
       = negb (Pd.isin_row patient_col train_patients r)
  else Pd.isin_row patient_col train_patients r = false
       ∧ Pd.isin_row patient_col test_patients r = false.
Proof.
  intros Hperm Hr. unfold Pd.isin_row.
  destruct (r !! patient_col) as [p|] eqn:Hp; simpl.
  - assert (Hin : p ∈ test_patients ++ train_patients).
    { rewrite Hperm, elem_of_unique. unfold column_values.
      apply list_elem_of_omap. eauto. }
    assert (Hnd : NoDup (test_patients ++ train_patients))
      by (rewrite Hperm; apply NoDup_unique).
    apply NoDup_app in Hnd as (_ & Hdisj & _).
    apply elem_of_app in Hin as [Hin|Hin].
    + rewrite (bool_decide_eq_true_2 _ Hin).
      by rewrite bool_decide_eq_false_2 by by apply Hdisj.
    + rewrite (bool_decide_eq_true_2 _ Hin).
      rewrite bool_decide_eq_false_2; [done|]. intros Hte. by eapply Hdisj.
  - done.
Qed.

End Coverage.

(** C2 (as amended). Whenever [train_test_df_patient_wise] returns, the two
    tables are the input filtered by two masks over its rows; at the
    position of a row with a patient id exactly one mask is set, at the
    position of a row whose patient id is null neither is, and together
    the two tables hold exactly the rows with a patient id, each as often
    as the input does. *)
Theorem split_covers_rows_with_patient `{Numpy} (g : RandomState) (df : DataFrame)
    (patient_col label_col : string) (test_size : Q) (seed : Z)
    (tr te : DataFrame) :
  GTEx.train_test_df_patient_wise g df patient_col label_col test_size seed
  = Ok (tr, te) →
  ∃ mask_train mask_test : list bool,
    tr = Pd.loc df mask_train ∧ te = Pd.loc df mask_test
    ∧ (∀ i r, rows df !! i = Some r →
         match r !! patient_col with
         | Some _ => ∃ b, mask_train !! i = Some b ∧ mask_test !! i = Some (negb b)
         | None => mask_train !! i = Some false ∧ mask_test !! i = Some false
         end)
    ∧ rows tr ++ rows te
      ≡ₚ filter (λ r, bool_decide (is_Some (r !! patient_col)) = true) (rows df).
Proof.
  intros (trp & tep & Hperm & -> & ->)%train_test_df_patient_wise_inv.
  exists (Pd.isin df patient_col trp), (Pd.isin df patient_col tep).
  split_and!; [done..| |].
  - intros i r Hi. unfold Pd.isin.
    change (map ?f ?l) with (f <$> l). rewrite !list_lookup_fmap, Hi. simpl.
    pose proof (isin_row_partition df patient_col trp tep r Hperm
                  ltac:(by eapply list_elem_of_lookup_2)) as Hr.
    destruct (r !! patient_col) as [p|] eqn:Hp.
    + rewrite bool_decide_eq_true_2 in Hr by eauto.
      exists (Pd.isin_row patient_col trp r). by rewrite Hr.
    + rewrite bool_decide_eq_false_2 in Hr by by intros [??].
      by destruct Hr as [-> ->].
  - rewrite !rows_loc_isin. apply filter_partition_perm.
    intros r Hr. by apply (isin_row_partition df).
Qed.

Lemma split_covers_rows_with_patient_witness :
  let train :=
    {| columns := columns Demo.metadata;
       rows := [ Demo.metadata_row "GTEX-A-1" "GTEX-A" "Lung";
                 Demo.metadata_row "GTEX-B-1" "GTEX-B" "Liver";
                 Demo.metadata_row "GTEX-A-2" "GTEX-A" "Liver" ] |} in
  let test :=
    {| columns := columns Demo.metadata;
       rows := [ Demo.metadata_row "GTEX-C-1" "GTEX-C" "Lung" ] |} in
  GTEx.train_test_df_patient_wise (H := Demo.numpy) 7%Z Demo.metadata_with_orphan
    "Subject ID" "Tissue" (1 # 5) 1234%Z = Ok (train, test)
  ∧ rows train ++ rows test
    ≡ₚ filter (λ r, bool_decide (is_Some (r !! "Subject ID")) = true)
         (rows Demo.metadata_with_orphan).
Proof.
  intros train test.
  assert (Hrun : GTEx.train_test_df_patient_wise (H := Demo.numpy) 7%Z
                   Demo.metadata_with_orphan "Subject ID" "Tissue" (1 # 5) 1234%Z
                 = Ok (train, test))
    by (vm_compute; reflexivity).
  split; [exact Hrun|].
  destruct (split_covers_rows_with_patient (H := Demo.numpy) 7%Z
              Demo.metadata_with_orphan "Subject ID" "Tissue" (1 # 5) 1234%Z
              train test Hrun) as (_ & _ & _ & _ & _ & Hcover).
  exact Hcover.
Defined.

(** C2 fails on a table with a row whose patient id is null: the row is in
    the input and in neither output. *)
Lemma split_coverage_counterexample :
  let train :=
    {| columns := columns Demo.metadata;
       rows := [ Demo.metadata_row "GTEX-A-1" "GTEX-A" "Lung";
                 Demo.metadata_row "GTEX-B-1" "GTEX-B" "Liver";
                 Demo.metadata_row "GTEX-A-2" "GTEX-A" "Liver" ] |} in
  let test :=
    {| columns := columns Demo.metadata;
       rows := [ Demo.metadata_row "GTEX-C-1" "GTEX-C" "Lung" ] |} in
  GTEx.train_test_df_patient_wise (H := Demo.numpy) 7%Z Demo.metadata_with_orphan
    "Subject ID" "Tissue" (1 # 5) 1234%Z = Ok (train, test)
  ∧ Demo.orphan_row ∈ rows Demo.metadata_with_orphan
  ∧ (Demo.orphan_row ∉ rows train)
  ∧ (Demo.orphan_row ∉ rows test).
Proof.
  intros train test. split_and!.
  - vm_compute; reflexivity.
  - apply elem_of_app. right. left.
  - apply (bool_decide_eq_false_1 (Demo.orphan_row ∈ rows train)).
    vm_compute; reflexivity.
  - apply (bool_decide_eq_false_1 (Demo.orphan_row ∈ rows test)).
    vm_compute; reflexivity.
Qed.


(** ** Determinism in the seed *)

(** C3. The result of [train_test_df_patient_wise] is a function of the
    table, the two column names, the test fraction and the seed alone: two
    runs started in different states of numpy's global generator return
    the same tables (or raise the same exception). *)
Theorem split_deterministic `{Numpy} (g1 g2 : RandomState) (df : DataFrame)
    (patient_col label_col : string) (test_size : Q) (seed : Z) :
  GTEx.train_test_df_patient_wise g1 df patient_col label_col test_size seed
  = GTEx.train_test_df_patient_wise g2 df patient_col label_col test_size seed.
Proof.
  unfold GTEx.train_test_df_patient_wise.
  destruct (Pd.groupby_unique df patient_col label_col) as [pwl|]; [|done].
  simpl. unfold Sk.train_test_split.
  destruct (Sk.validate_shuffle_split (length pwl.*1) test_size)
    as [[n_train n_test]|]; done.
Qed.

(** ** The split is a plain random split *)

Lemma validate_shuffle_split_too_few `{Numpy} (n : nat) (test_size : Q) :
  (n ≤ 1)%nat → (0 < test_size)%Q → (test_size < 1)%Q →
  Sk.validate_shuffle_split n test_size
  = Raise (ValueError "the resulting train set will be empty").
Proof.
  intros Hn H0 H1. unfold Sk.validate_shuffle_split.
  assert (Qle_bool test_size 0 = false) as ->.
  { apply not_true_is_false. rewrite Qle_bool_iff. by apply Qlt_not_le. }
  assert (Qle_bool 1 test_size = false) as ->.
  { apply not_true_is_false. rewrite Qle_bool_iff. by apply Qlt_not_le. }
  simpl. rewrite decide_True; [done|].
  destruct n as [|[|n]]; [done| |lia].
  pose proof (ceil_mul_pos test_size 1 H0 ltac:(lia)). lia.
Qed.

Section Plain.
Context `{Numpy}.

Lemma train_test_df_patient_wise_labels g df patient_col label_col label_col'
    test_size seed :
  label_col ∈ columns df → label_col' ∈ columns df →
  GTEx.train_test_df_patient_wise g df patient_col label_col' test_size seed
  = GTEx.train_test_df_patient_wise g df patient_col label_col test_size seed.
Proof.
  intros Hl Hl'. unfold GTEx.train_test_df_patient_wise.
  destruct (Pd.groupby_unique df patient_col label_col) as [pwl|e] eqn:Hg;
    destruct (Pd.groupby_unique df patient_col label_col') as [pwl'|e'] eqn:Hg'.
  - apply groupby_unique_keys in Hg as (_ & _ & Hk).
    apply groupby_unique_keys in Hg' as (_ & _ & Hk').
    simpl. by rewrite Hk, Hk'.
  - unfold Pd.groupby_unique in Hg, Hg'.
    destruct (decide (patient_col ∈ columns df)); [|done].
    by rewrite decide_True in Hg' by done.
  - unfold Pd.groupby_unique in Hg, Hg'.
    destruct (decide (patient_col ∈ columns df)); [|done].
    by rewrite decide_True in Hg by done.
  - unfold Pd.groupby_unique in Hg, Hg'.
    destruct (decide (patient_col ∈ columns df)); [|congruence].
    by rewrite decide_True in Hg by done.
Qed.

Lemma train_test_df_patient_wise_too_few g df patient_col label_col test_size seed :
  patient_col ∈ columns df → label_col ∈ columns df →
  (0 < test_size)%Q → (test_size < 1)%Q →
  (length (Pd.unique (column_values df patient_col)) ≤ 1)%nat →
  GTEx.train_test_df_patient_wise g df patient_col label_col test_size seed
  = Raise (ValueError "the resulting train set will be empty").
Proof.
  intros Hp Hl H0 H1 Hn. unfold GTEx.train_test_df_patient_wise.
  destruct (Pd.groupby_unique df patient_col label_col) as [pwl|e] eqn:Hg.
  - apply groupby_unique_keys_perm, Permutation_length in Hg.
    simpl. unfold Sk.train_test_split.
    rewrite validate_shuffle_split_too_few; [done|lia|done..].
  - unfold Pd.groupby_unique in Hg. by rewrite !decide_True in Hg by done.
Qed.

End Plain.

(** C4 (as amended). The splitter is a plain seeded random split over the
    unique patient ids: the label column is not consulted (any two columns
    of the table give the same result), the patient ids of the two outputs
    are disjoint whenever it returns, and there is no fallback: on a table
    with at most one patient it raises [ValueError]. *)
Theorem split_plain_no_fallback `{Numpy} (g : RandomState) (df : DataFrame)
    (patient_col label_col : string) (test_size : Q) (seed : Z) :
  (∀ label_col', label_col ∈ columns df → label_col' ∈ columns df →
     GTEx.train_test_df_patient_wise g df patient_col label_col' test_size seed
     = GTEx.train_test_df_patient_wise g df patient_col label_col test_size seed)
  ∧ (∀ tr te,
       GTEx.train_test_df_patient_wise g df patient_col label_col test_size seed
       = Ok (tr, te) →
       column_values tr patient_col ## column_values te patient_col)
  ∧ (patient_col ∈ columns df → label_col ∈ columns df →
     (0 < test_size)%Q → (test_size < 1)%Q →
     (length (Pd.unique (column_values df patient_col)) ≤ 1)%nat →
     GTEx.train_test_df_patient_wise g df patient_col label_col test_size seed
     = Raise (ValueError "the resulting train set will be empty")).
Proof.
  split_and!.
  - intros label_col'. apply train_test_df_patient_wise_labels.
  - intros tr te. apply split_patients_disjoint.
  - apply train_test_df_patient_wise_too_few.
Qed.

Lemma split_plain_no_fallback_witness :
  GTEx.train_test_df_patient_wise (H := Demo.numpy) 0%Z Demo.metadata
    "Subject ID" "Tissue Sample ID" (1 # 5) 1234%Z
  = GTEx.train_test_df_patient_wise (H := Demo.numpy) 0%Z Demo.metadata
      "Subject ID" "Tissue" (1 # 5) 1234%Z
  ∧ GTEx.train_test_df_patient_wise (H := Demo.numpy) 0%Z Demo.single_patient
      "Subject ID" "Tissue" (1 # 5) 1234%Z
    = Raise (ValueError "the resulting train set will be empty").
Proof.
  split.
  - apply (split_plain_no_fallback (H := Demo.numpy) 0%Z Demo.metadata
             "Subject ID" "Tissue" (1 # 5) 1234%Z).
    + right. right. left.
    + left.
  - apply (split_plain_no_fallback (H := Demo.numpy) 0%Z Demo.single_patient
             "Subject ID" "Tissue" (1 # 5) 1234%Z).
    + right. left.
    + right. right. left.
    + reflexivity.
    + reflexivity.
    + vm_compute. lia.
Defined.

(** C4 fails on a table with a single patient: no fallback split is
    made, the call raises. *)
Lemma split_fallback_counterexample :
  GTEx.train_test_df_patient_wise (H := Demo.numpy) 0%Z Demo.single_patient
    "Subject ID" "Tissue" (1 # 5) 1234%Z
  = Raise (ValueError "the resulting train set will be empty").
Proof. vm_compute; reflexivity. Qed.


(** ** The retriever *)

Section Retriever.
Context `{Numpy} `{Requests} `{Os}.
Implicit Types (w : GTEx.World) (id : string).

Lemma elem_of_listdir (w : GTEx.World) (name : string) :
  name ∈ GTEx.listdir w ↔ is_Some (GTEx.files w !! name).
Proof.
  unfold GTEx.listdir. rewrite list_elem_of_fmap. split.
  - intros ([k v] & -> & Hkv%elem_of_map_to_list). by eexists.
  - intros [v Hv]. exists (name, v). split; [done|]. by apply elem_of_map_to_list.
Qed.

Lemma url_of_inj id id' : GTEx.url_of id = GTEx.url_of id' → id = id'.
Proof. unfold GTEx.url_of. intros Heq. by do 2 apply (inj _) in Heq. Qed.

Lemma svs_name_inj id id' : id +:+ ".svs" = id' +:+ ".svs" → id = id'.
Proof.
  revert id'. induction id as [|c id IH]; intros [|c' id'] Heq; simpl in Heq.
  - done.
  - injection Heq as <- Heq. destruct id' as [|? [|? [|? [|? ?]]]]; discriminate.
  - injection Heq as -> Heq. destruct id as [|? [|? [|? [|? ?]]]]; discriminate.
  - injection Heq as -> Heq. f_equal. by apply IH.
Qed.

Lemma plain_svs id : GTEx.plain id → "/"%char ∉ Py.chars (id +:+ ".svs").
Proof.
  unfold GTEx.plain. induction id as [|c id IH]; intros Hplain.
  - by_evaluation.
  - apply not_elem_of_cons in Hplain as [Hc Hid].
    change (Py.chars (String c id +:+ ".svs"))
      with (c :: Py.chars (id +:+ ".svs")).
    apply not_elem_of_cons. split; [done|by apply IH].
Qed.

(** The five courses of one iteration: the listing raises; the file is
    there; the fetch raises; the fetch succeeds and writing the file raises;
    the file is fetched, written, and a delay is slept. *)
Lemma download_step_cases w w1 id e :
  GTEx.download_step w id = (w1, e) →
  (is_Some listdir_error ∧ e = listdir_error
   ∧ GTEx.files w1 = GTEx.files w ∧ GTEx.np_global w1 = GTEx.np_global w
   ∧ GTEx.log w1 = GTEx.log w ++ [(id, [])])
  ∨ (is_Some (GTEx.files w !! (id +:+ ".svs")) ∧ e = None
   ∧ GTEx.files w1 = GTEx.files w ∧ GTEx.np_global w1 = GTEx.np_global w
   ∧ GTEx.log w1 = GTEx.log w ++ [(id, [])])
  ∨ (GTEx.files w !! (id +:+ ".svs") = None
     ∧ requests_get (GTEx.url_of id) = None
     ∧ e = Some (ConnectionError (GTEx.url_of id))
     ∧ GTEx.files w1 = GTEx.files w ∧ GTEx.np_global w1 = GTEx.np_global w
     ∧ GTEx.log w1 = GTEx.log w ++ [(id, [GTEx.Fetch (GTEx.url_of id)])])
  ∨ (GTEx.files w !! (id +:+ ".svs") = None
     ∧ ∃ content e',
         requests_get (GTEx.url_of id) = Some content
         ∧ open_write (GTEx.files w) (id +:+ ".svs") content
           = WriteRaised e' (GTEx.files w1)
         ∧ e = Some e' ∧ GTEx.np_global w1 = GTEx.np_global w
         ∧ GTEx.log w1 = GTEx.log w ++ [(id, [GTEx.Fetch (GTEx.url_of id)])])
  ∨ (GTEx.files w !! (id +:+ ".svs") = None
     ∧ ∃ content d,
         requests_get (GTEx.url_of id) = Some content
         ∧ open_write (GTEx.files w) (id +:+ ".svs") content
           = Written (GTEx.files w1)
         ∧ e = None
         ∧ randint (GTEx.np_global w) 60 100 = (d, GTEx.np_global w1)
         ∧ (60 ≤ d < 100)%Z
         ∧ GTEx.log w1
           = GTEx.log w ++ [(id, [GTEx.Fetch (GTEx.url_of id); GTEx.Sleep d])]).
Proof.
  unfold GTEx.download_step. intros Hstep.
  destruct listdir_error as [e0|].
  { left. injection Hstep as <- <-. by split; [eexists|]. }
  right.
  destruct (decide (id +:+ ".svs" ∈ GTEx.listdir w)) as [Hin|Hnin].
  { left. apply elem_of_listdir in Hin. by injection Hstep as <- <-. }
  right. rewrite elem_of_listdir, <- eq_None_not_Some in Hnin.
  destruct (requests_get (GTEx.url_of id)) as [content|].
  - right. destruct (open_write _ _ content) as [entries|e' entries] eqn:Hwrite.
    + right. split; [done|].
      pose proof (randint_range (GTEx.np_global w) 60 100 eq_refl) as Hrange.
      destruct (randint (GTEx.np_global w) 60 100) as [d g'] eqn:Hd.
      injection Hstep as <- <-. simpl in *. by exists content, d.
    + left. split; [done|]. injection Hstep as <- <-. simpl. by exists content, e'.
  - left. by injection Hstep as <- <-.
Qed.

(** What an iteration over a plain id does to the entries: nothing, or it
    creates [{id}.svs], with the fetched content if nothing raised. *)
Lemma download_step_files w w1 id e :
  GTEx.plain id → GTEx.download_step w id = (w1, e) →
  GTEx.files w1 = GTEx.files w
  ∨ (GTEx.files w !! (id +:+ ".svs") = None
     ∧ ∃ c, GTEx.files w1 = <[id +:+ ".svs" := c]> (GTEx.files w)
            ∧ (e = None → requests_get (GTEx.url_of id) = Some c)).
Proof.
  intros Hplain%plain_svs
    [(_ & _ & ? & _)
    |[(_ & _ & ? & _)
     |[(_ & _ & _ & ? & _)
      |[(Habsent & content & e' & Hget & Hwrite & -> & _)
       |(Habsent & content & d & Hget & Hwrite & _)]]]]%download_step_cases;
    [by left..| |].
  - destruct (open_write_raised _ _ _ _ _ Hplain Habsent Hwrite)
      as [Heq|[partial Heq]]; [by left|].
    right. split; [done|]. by exists partial.
  - pose proof (open_write_plain _ _ _ _ Hplain Hwrite) as Heq.
    right. split; [done|]. by exists content.
Qed.

Lemma download_step_iteration w w1 id e :
  GTEx.download_step w id = (w1, e) →
  ∃ evs, GTEx.log w1 = GTEx.log w ++ [(id, evs)] ∧ GTEx.iteration_ok w (id, evs).
Proof.
  unfold GTEx.iteration_ok.
  intros [(_ & _ & _ & _ & Hlog)
         |[(Hpresent & _ & _ & _ & Hlog)
          |[(Habsent & _ & _ & _ & _ & Hlog)
           |[(Habsent & content & e' & _ & _ & _ & _ & Hlog)
            |(Habsent & content & d & _ & _ & _ & _ & Hd & Hlog)]]]]%download_step_cases;
    eexists; (split; [exact Hlog|]); simpl; split;
    try (intros [? ?]; congruence); eauto.
Qed.

Lemma download_wsi_gtex_spec (w w' : GTEx.World) (sample_ids : list string)
    (e : option exn) :
  Forall GTEx.plain sample_ids →
  GTEx.download_wsi_gtex w sample_ids = (w', e) →
  (∀ k, is_Some (GTEx.files w !! k) → GTEx.files w' !! k = GTEx.files w !! k)
  ∧ ∃ new, GTEx.log w' = GTEx.log w ++ new ∧ Forall (GTEx.iteration_ok w) new.
Proof.
  intros Hplain. revert w.
  induction Hplain as [|sample_id sample_ids Hid _ IH]; intros w; simpl.
  - intros [= <- <-]. split; [done|]. exists []. by rewrite app_nil_r.
  - destruct (GTEx.download_step w sample_id) as [w1 e1] eqn:Hstep.
    pose proof (download_step_iteration _ _ _ _ Hstep) as (evs & Hlog & Hok).
    assert (Hfiles : ∀ k, is_Some (GTEx.files w !! k) →
                          GTEx.files w1 !! k = GTEx.files w !! k).
    { intros k Hk.
      destruct (download_step_files _ _ _ _ Hid Hstep) as [->|(Habsent & c & -> & _)];
        [done|].
      apply lookup_insert_ne. intros <-. rewrite Habsent in Hk. by destruct Hk. }
    destruct e1 as [e1|].
    + intros [= <- <-]. split; [done|]. exists [(sample_id, evs)]. auto.
    + intros (Hfiles' & new & Hlog' & Hnew)%IH. split.
      * intros k Hk. rewrite Hfiles' by (by rewrite Hfiles). by apply Hfiles.
      * exists ((sample_id, evs) :: new). split.
        { by rewrite Hlog', Hlog, <- app_assoc. }
        constructor; [done|].
        eapply Forall_impl; [exact Hnew|].
        intros [id' evs'] [Hskip Hshape]. split; [|done].
        intros Hpresent. apply Hskip. by rewrite Hfiles.
Qed.



End Retriever.

(** C7 (as amended). For a list of sample ids that are plain file names
    (no path separator): if [{id}.svs] is in the target directory when
    [download_wsi_gtex] starts, then no iteration fetches the URL of [id],
    the iterations for [id] log neither a fetch nor a sleep, and the file
    holds the same contents in the end. *)
Theorem download_skips_existing `{Numpy} `{Requests} `{Os} (w w' : GTEx.World)
    (sample_ids : list string) (e : option exn) (id : string) :
  Forall GTEx.plain sample_ids →
  GTEx.download_wsi_gtex w sample_ids = (w', e) →
  is_Some (GTEx.files w !! (id +:+ ".svs")) →
  GTEx.files w' !! (id +:+ ".svs") = GTEx.files w !! (id +:+ ".svs")
  ∧ ∃ new, GTEx.log w' = GTEx.log w ++ new
           ∧ ∀ id' evs, (id', evs) ∈ new →
               (GTEx.Fetch (GTEx.url_of id) ∉ evs)
               ∧ (id' = id → evs = []).
Proof.
  intros Hplain Hrun Hpresent.
  destruct (download_wsi_gtex_spec _ _ _ _ Hplain Hrun) as (Hfiles & new & Hlog & Hnew).
  split; [by apply Hfiles|]. exists new. split; [done|].
  intros id' evs Hin.
  rewrite Forall_forall in Hnew. destruct (Hnew _ Hin) as [Hskip Hshape].
  simpl in *. split.
  - destruct (decide (id' = id)) as [->|Hne].
    + rewrite (Hskip Hpresent). apply not_elem_of_nil.
    + assert (GTEx.url_of id' ≠ GTEx.url_of id) as Hurl
        by (by intros ?%url_of_inj).
      destruct Hshape as [->|[->|(d & -> & _)]].
      * apply not_elem_of_nil.
      * rewrite list_elem_of_singleton. by intros [= ?].
      * rewrite !elem_of_cons, elem_of_nil. intros [[= ?]|[[=]|[]]]. done.
  - intros ->. by apply Hskip.
Qed.


Lemma demo_download_run :
  GTEx.download_wsi_gtex (H := Demo.numpy) (H0 := Demo.requests) (H1 := Demo.posix)
    Demo.world ["GTEX-A-1"; "GTEX-B-1"] = (Demo.world_after, None).
Proof. vm_compute; reflexivity. Qed.

Lemma download_skips_existing_witness :
  GTEx.files Demo.world_after !! "GTEX-A-1.svs" = Some "old bytes"
  ∧ ∃ new, GTEx.log Demo.world_after = GTEx.log Demo.world ++ new
           ∧ ∀ id' evs, (id', evs) ∈ new →
               (GTEx.Fetch (GTEx.url_of "GTEX-A-1") ∉ evs)
               ∧ (id' = "GTEX-A-1" → evs = []).
Proof.
  apply (download_skips_existing (H := Demo.numpy) (H0 := Demo.requests)
           (H1 := Demo.posix)
           Demo.world Demo.world_after ["GTEX-A-1"; "GTEX-B-1"] None "GTEX-A-1").
  - by_evaluation.
  - exact demo_download_run.
  - exists "old bytes". vm_compute; reflexivity.
Defined.

(** C7 fails on a list with a sample id that holds a path separator: with
    [GTEX-A-1.svs] in the directory and the list [GTEX-A-1], [./GTEX-A-1],
    the entry is not in the listing under the second name, so the slide is
    fetched, a delay is slept, and the existing file is overwritten. *)
Lemma download_skips_existing_counterexample :
  "GTEX-A-1" ∈ ["GTEX-A-1"; "./GTEX-A-1"]
  ∧ GTEx.files Demo.world !! ("GTEX-A-1" +:+ ".svs") = Some "old bytes"
  ∧ GTEx.download_wsi_gtex (H := Demo.numpy) (H0 := Demo.requests)
      (H1 := Demo.posix) Demo.world ["GTEX-A-1"; "./GTEX-A-1"]
    = (Demo.world_overwritten, None)
  ∧ GTEx.files Demo.world_overwritten !! ("GTEX-A-1" +:+ ".svs")
    ≠ GTEx.files Demo.world !! ("GTEX-A-1" +:+ ".svs")
  ∧ GTEx.events (GTEx.log Demo.world_overwritten)
    = [ GTEx.Fetch (GTEx.url_of "./GTEX-A-1"); GTEx.Sleep 65 ].
Proof.
  split; [left|]. split; [vm_compute; reflexivity|].
  split; [vm_compute; reflexivity|]. split; [by_evaluation|].
  vm_compute; reflexivity.
Qed.


(** ** The metadata join *)

Section Join.
Implicit Types (r : gmap string string) (df : DataFrame) (f : string).

Lemma wf_lookup df r (c : string) :
  wf df → r ∈ rows df → is_Some (r !! c) → c ∈ columns df.
Proof.
  unfold wf. rewrite Forall_forall. intros Hwf Hr [v Hv].
  specialize (Hwf r Hr). rewrite Forall_forall in Hwf. apply Hwf.
  apply list_elem_of_fmap. exists (c, v). split; [done|].
  by apply elem_of_map_to_list.
Qed.

Lemma wf_null_column df r (c : string) :
  wf df → c ∉ columns df → r ∈ rows df → r !! c = None.
Proof.
  intros Hwf Hc Hr. apply eq_None_not_Some. intros Hsome.
  apply Hc. by eapply wf_lookup.
Qed.

Lemma filter_map_comm {A B} (g : A → B) (P : B → Prop) `{∀ y, Decision (P y)}
    (l : list A) :
  filter P (map g l) = map g (filter (λ x, P (g x)) l).
Proof.
  induction l as [|x l IH]; simpl; [done|].
  rewrite !filter_cons, IH. by destruct (decide (P (g x))).
Qed.

Lemma count_eq_NoDup {A} `{EqDecision A} (l : list A) (x : A) :
  NoDup l →
  length (filter (λ y, y = x) l) = if decide (x ∈ l) then 1 else 0.
Proof.
  induction 1 as [|y l Hy Hnd IH].
  - destruct (decide (x ∈ [])) as [Hin|]; [by apply elem_of_nil in Hin|done].
  - rewrite filter_cons.
    destruct (decide (y = x)) as [->|Hne], (decide (x ∈ l)) as [Hin|Hnin];
      simpl; rewrite IH; try done.
    + by rewrite decide_True by left.
    + by rewrite decide_True by by right.
    + rewrite decide_False; [done|]. rewrite not_elem_of_cons. by split.
Qed.

(** The rows the join emits for one metadata row, in terms of the tiles
    whose derived sample id is the row's. *)
Lemma join_row_tiles (listing : list string) r :
  Pd.join_row (GTEx.tiles_filenames_df listing) "Tissue Sample ID" r
  = match filter (λ f, r !! "Tissue Sample ID" = Some (GTEx.sample_id_of f))
                 (GTEx.tiles_filenames listing) with
    | [] => [r]
    | ms => map (λ f, r ∪ {["tile_filename" := f]}) ms
    end.
Proof.
  unfold Pd.join_row, GTEx.tiles_filenames_df.
  rewrite (filter_map_comm _ (λ o, r !! "Tissue Sample ID" = Some o.1)). simpl.
  destruct (filter _ (GTEx.tiles_filenames listing)) as [|f ms]; [done|].
  simpl. f_equal. induction ms; simpl; by f_equal.
Qed.

Lemma tiles_metadata_ok (listing : list string) df :
  "Tissue Sample ID" ∈ columns df → "tile_filename" ∉ columns df →
  GTEx.tiles_metadata listing df
  = Ok {| columns := columns df ++ ["tile_filename"];
          rows := rows df ≫=
                    Pd.join_row (GTEx.tiles_filenames_df listing) "Tissue Sample ID" |}.
Proof.
  intros Hon Htf. unfold GTEx.tiles_metadata, Pd.join.
  rewrite decide_True by done. rewrite decide_False; [done|].
  rewrite Exists_cons, Exists_nil. tauto.
Qed.

Lemma tiles_metadata_inv (listing : list string) df joined :
  GTEx.tiles_metadata listing df = Ok joined →
  "Tissue Sample ID" ∈ columns df ∧ ("tile_filename" ∉ columns df)
  ∧ rows joined
    = rows df ≫= Pd.join_row (GTEx.tiles_filenames_df listing) "Tissue Sample ID".
Proof.
  unfold GTEx.tiles_metadata, Pd.join. intros Hj.
  destruct (decide ("Tissue Sample ID" ∈ columns df)); [|done].
  destruct (decide (Exists _ _)) as [|Hno]; [done|].
  injection Hj as <-. split_and!; [done| |done].
  intros Hin. apply Hno. by left.
Qed.

Lemma count_tile_in_emitted (ms : list string) r f :
  r !! "tile_filename" = None →
  length (filter (λ r', r' !! "tile_filename" = Some f)
                 (map (λ f', r ∪ {["tile_filename" := f']}) ms))
  = length (filter (λ f', f' = f) ms).
Proof.
  intros Hnull. rewrite (filter_map_comm _ (λ r', r' !! "tile_filename" = Some f)).
  change (map ?g ?l) with (g <$> l). rewrite length_fmap.
  f_equal. apply list_filter_iff. intros f'.
  rewrite lookup_union_r, lookup_singleton_eq by done. naive_solver.
Qed.

Lemma count_tile_in_join_row (listing : list string) r f :
  NoDup listing → r !! "tile_filename" = None →
  f ∈ GTEx.tiles_filenames listing →
  length (filter (λ r', r' !! "tile_filename" = Some f)
            (Pd.join_row (GTEx.tiles_filenames_df listing) "Tissue Sample ID" r))
  = if decide (r !! "Tissue Sample ID" = Some (GTEx.sample_id_of f)) then 1 else 0.
Proof.
  intros Hnd Hnull Hf. rewrite join_row_tiles.
  set (ms := filter _ (GTEx.tiles_filenames listing)).
  assert (Hms : length (filter (λ f', f' = f) ms)
                = if decide (r !! "Tissue Sample ID" = Some (GTEx.sample_id_of f))
                  then 1 else 0).
  { rewrite count_eq_NoDup by by do 2 apply NoDup_filter.
    unfold ms. destruct (decide (r !! _ = _)) as [Hm|Hm].
    - rewrite decide_True; [done|]. by apply list_elem_of_filter.
    - rewrite decide_False; [done|]. by intros [? _]%list_elem_of_filter. }
  destruct ms as [|f0 ms'] eqn:Hmseq.
  - rewrite <- Hms. simpl. rewrite filter_cons, decide_False; [done|].
    by rewrite Hnull.
  - rewrite <- Hms. by apply count_tile_in_emitted.
Qed.

End Join.

(** C5 (as amended). The join is a left join from the metadata and raises
    nothing for a tile without metadata: on a well-formed metadata table
    with a sample-id column it returns a table in which each tile file of
    the listing occurs in as many rows as there are metadata rows with its
    derived sample id; once when exactly one metadata row matches, never
    when none does. *)
Theorem join_counts_metadata_matches (listing : list string) (metadata_df : DataFrame) :
  wf metadata_df → NoDup listing →
  "Tissue Sample ID" ∈ columns metadata_df →
  "tile_filename" ∉ columns metadata_df →
  ∃ joined, GTEx.tiles_metadata listing metadata_df = Ok joined
    ∧ ∀ f, f ∈ GTEx.tiles_filenames listing →
        length (filter (λ r, r !! "tile_filename" = Some f) (rows joined))
        = length (filter (λ r, r !! "Tissue Sample ID" = Some (GTEx.sample_id_of f))
                         (rows metadata_df)).
Proof.
  intros Hwf Hnd Hon Htf. eexists. split; [by apply tiles_metadata_ok|].
  intros f Hf. simpl.
  assert (Hnull : ∀ r, r ∈ rows metadata_df → r !! "tile_filename" = None)
    by (intros r; by apply wf_null_column).
  induction (rows metadata_df) as [|r l IH]; [done|].
  rewrite bind_cons, filter_app, length_app, filter_cons.
  rewrite count_tile_in_join_row by (try done; apply Hnull; left).
  rewrite IH by (intros r' Hr'; apply Hnull; by right).
  by destruct (decide (r !! _ = _)).
Qed.


Lemma join_counts_metadata_matches_witness :
  ∃ joined, GTEx.tiles_metadata Demo.tiles_listing Demo.metadata = Ok joined
    ∧ length (filter (λ r, r !! "tile_filename"
                           = Some "GTEX-B-1_tile_0_level2_0-0-512-512.png")
                     (rows joined)) = 1
    ∧ length (filter (λ r, r !! "tile_filename"
                           = Some "GTEX-Z-9_tile_0_level2_0-0-512-512.png")
                     (rows joined)) = 0.
Proof.
  destruct (join_counts_metadata_matches Demo.tiles_listing Demo.metadata)
    as (joined & Hjoin & Hcount).
  - by_evaluation.
  - by_evaluation.
  - left.
  - by_evaluation.
  - exists joined. split; [exact Hjoin|]. split.
    + rewrite Hcount by by_evaluation.
      vm_compute; reflexivity.
    + rewrite Hcount by by_evaluation.
      vm_compute; reflexivity.
Defined.

(** C5 fails on a listing with a tile whose derived sample id
    ([GTEX-Z-9]) is in no metadata row: the join returns normally, and
    the tile is in no row of the joined table. *)
Lemma join_drops_unmatched_tile_counterexample :
  let f := "GTEX-Z-9_tile_0_level2_0-0-512-512.png" in
  f ∈ GTEx.tiles_filenames Demo.tiles_listing
  ∧ GTEx.sample_id_of f = "GTEX-Z-9"
  ∧ GTEx.tiles_metadata Demo.tiles_listing Demo.metadata = Ok Demo.joined
  ∧ Forall (λ r, r !! "tile_filename" ≠ Some f) (rows Demo.joined).
Proof.
  intros f. split_and!.
  - by_evaluation.
  - vm_compute; reflexivity.
  - vm_compute; reflexivity.
  - by_evaluation.
Qed.


(** ** The join is metadata-left, and the split keeps a row's tiles together *)

Section JoinSplit.
Context `{Numpy}.
Implicit Types (r : gmap string string) (df : DataFrame).

Lemma split_tiles_patient_wise_inv g listing df label_col patient_col test_size seed
    tr te :
  GTEx.split_tiles_patient_wise g listing df label_col patient_col test_size seed
  = Ok (tr, te) →
  ∃ joined, GTEx.tiles_metadata listing df = Ok joined
    ∧ GTEx.train_test_df_patient_wise g joined patient_col label_col test_size seed
      = Ok (tr, te).
Proof.
  unfold GTEx.split_tiles_patient_wise. intros Hs.
  destruct (GTEx.tiles_metadata listing df) as [joined|]; [|done]. eauto.
Qed.

Lemma join_row_emitted (listing : list string) r :
  r !! "tile_filename" = None →
  Pd.join_row (GTEx.tiles_filenames_df listing) "Tissue Sample ID" r
  = match filter (λ f, r !! "Tissue Sample ID" = Some (GTEx.sample_id_of f))
                 (GTEx.tiles_filenames listing) with
    | [] => [r]
    | ms => map (λ f, <["tile_filename" := f]> r) ms
    end.
Proof.
  intros Hnull. rewrite join_row_tiles.
  destruct (filter _ (GTEx.tiles_filenames listing)) as [|f ms]; [done|].
  generalize (f :: ms). intros l. induction l as [|f' l IH]; simpl; [done|].
  by rewrite IH, insert_union_singleton_r.
Qed.

Lemma join_row_patient (listing : list string) r r' (patient_col p : string) :
  r !! patient_col = Some p →
  r' ∈ Pd.join_row (GTEx.tiles_filenames_df listing) "Tissue Sample ID" r →
  r' !! patient_col = Some p.
Proof.
  intros Hp. rewrite join_row_tiles.
  destruct (filter _ (GTEx.tiles_filenames listing)) as [|f ms].
  - by intros ->%list_elem_of_singleton.
  - change (map ?g ?l) with (g <$> l). intros (f' & -> & _)%list_elem_of_fmap.
    by apply lookup_union_Some_l.
Qed.

Lemma join_row_patient_null (listing : list string) r r' (patient_col : string) :
  r !! patient_col = None → patient_col ≠ "tile_filename" →
  r' ∈ Pd.join_row (GTEx.tiles_filenames_df listing) "Tissue Sample ID" r →
  r' !! patient_col = None.
Proof.
  intros Hp Hne. rewrite join_row_tiles.
  destruct (filter _ (GTEx.tiles_filenames listing)) as [|f ms].
  - by intros ->%list_elem_of_singleton.
  - change (map ?g ?l) with (g <$> l). intros (f' & -> & _)%list_elem_of_fmap.
    apply lookup_union_None. split; [done|]. by apply lookup_singleton_ne.
Qed.

End JoinSplit.

(** C9 (as amended). Whenever the join of [split_tiles_patient_wise]
    returns on a well-formed metadata table, every metadata row is kept:
    a row whose sample id matches no tile file is emitted once, its
    [tile_filename] null; a row matching k tile files is emitted k times,
    once per tile; and the joined table is made of the rows so emitted, in
    the order of the metadata. Whenever the split then returns, the rows
    emitted for a metadata row with a patient id are all in the same one of
    the two output tables and not in the other, and the rows emitted for a
    metadata row whose patient id is null are in neither output table (the
    patient column being a column of the metadata, not [tile_filename]). *)
Theorem join_is_metadata_left `{Numpy} (listing : list string)
    (metadata_df joined : DataFrame) (r : gmap string string) :
  wf metadata_df →
  GTEx.tiles_metadata listing metadata_df = Ok joined →
  r ∈ rows metadata_df →
  let matching :=
    filter (λ f, r !! "Tissue Sample ID" = Some (GTEx.sample_id_of f))
           (GTEx.tiles_filenames listing) in
  let emitted :=
    match matching with
    | [] => [r]
    | _ => map (λ f, <["tile_filename" := f]> r) matching
    end in
  r !! "tile_filename" = None
  ∧ Pd.join_row (GTEx.tiles_filenames_df listing) "Tissue Sample ID" r = emitted
  ∧ rows joined
    = rows metadata_df
      ≫= Pd.join_row (GTEx.tiles_filenames_df listing) "Tissue Sample ID"
  ∧ Forall (λ r', r' ∈ rows joined) emitted
  ∧ ∀ (g : RandomState) (label_col patient_col : string) (test_size : Q)
      (seed : Z) (tr te : DataFrame),
      GTEx.split_tiles_patient_wise g listing metadata_df label_col patient_col
                                    test_size seed = Ok (tr, te) →
      (is_Some (r !! patient_col) →
       Forall (λ r', r' ∈ rows tr ∧ r' ∉ rows te) emitted
       ∨ Forall (λ r', r' ∈ rows te ∧ r' ∉ rows tr) emitted)
      ∧ (r !! patient_col = None → patient_col ≠ "tile_filename" →
         Forall (λ r', (r' ∉ rows tr) ∧ (r' ∉ rows te)) emitted).
Proof.
  intros Hwf Hjoin Hr.
  pose proof Hjoin as (_ & Htf & Hrows)%tiles_metadata_inv.
  assert (Hnull : r !! "tile_filename" = None) by by eapply wf_null_column.
  intros matching emitted.
  assert (Hemit : Pd.join_row (GTEx.tiles_filenames_df listing) "Tissue Sample ID" r
                  = emitted).
  { subst emitted matching. rewrite join_row_emitted by done.
    by destruct (filter _ (GTEx.tiles_filenames listing)). }
  assert (Hjoined : ∀ r', r' ∈ emitted → r' ∈ rows joined).
  { intros r' Hr'. rewrite Hrows. apply list_elem_of_bind. exists r.
    by rewrite Hemit. }
  split_and!; [done|done|done|by apply Forall_forall|].
  rewrite <- Hemit in Hjoined |- *. clear emitted Hemit.
  intros g label_col patient_col test_size seed tr te
    (joined' & Hjoin' & Hsplit)%split_tiles_patient_wise_inv.
  rewrite Hjoin in Hjoin'. injection Hjoin' as <-.
  apply train_test_df_patient_wise_inv in Hsplit as (trp & tep & Hperm & -> & ->).
  rewrite !rows_loc_isin. split.
  - intros [p Hp].
    assert (Hall : ∀ r', r' ∈ Pd.join_row (GTEx.tiles_filenames_df listing)
                                  "Tissue Sample ID" r →
                   r' ∈ rows joined
                   ∧ Pd.isin_row patient_col trp r' = bool_decide (p ∈ trp)
                   ∧ Pd.isin_row patient_col tep r' = negb (bool_decide (p ∈ trp))).
    { intros r' Hr'. pose proof (Hjoined _ Hr') as Hin.
      pose proof (join_row_patient _ _ _ _ _ Hp Hr') as Hp'.
      pose proof (isin_row_partition joined patient_col trp tep r' Hperm Hin) as Hpart.
      rewrite bool_decide_eq_true_2 in Hpart by eauto.
      split; [done|]. rewrite Hpart. unfold Pd.isin_row. by rewrite Hp'. }
    destruct (bool_decide (p ∈ trp)) eqn:Htrain; [left|right];
      apply Forall_forall; intros r' (Hin & Htr & Hte)%Hall;
      rewrite !list_elem_of_filter; simpl in *.
    + split; [done|]. intros [Hte' _]. congruence.
    + split; [done|]. intros [Htr' _]. congruence.
  - intros Hp Hne. apply Forall_forall. intros r' Hr'.
    pose proof (join_row_patient_null _ _ _ _ Hp Hne Hr') as Hp'.
    rewrite !list_elem_of_filter. unfold Pd.isin_row. rewrite Hp'.
    split; by intros [? _].
Qed.

Lemma demo_split_tiles_run :
  GTEx.split_tiles_patient_wise (H := Demo.numpy) 0%Z Demo.tiles_listing
    Demo.metadata_with_orphan "Tissue" "Subject ID" (1 # 5) 1234%Z
  = Ok (Demo.train_tiles, Demo.test_tiles).
Proof. vm_compute; reflexivity. Qed.

Lemma demo_tiles_metadata_run :
  GTEx.tiles_metadata Demo.tiles_listing Demo.metadata_with_orphan
  = Ok Demo.joined_with_orphan.
Proof. vm_compute; reflexivity. Qed.

Lemma join_is_metadata_left_witness :
  (let r := Demo.metadata_row "GTEX-A-1" "GTEX-A" "Lung" in
   let emitted :=
     Pd.join_row (GTEx.tiles_filenames_df Demo.tiles_listing)
                 "Tissue Sample ID" r in
   Forall (λ r', r' ∈ rows Demo.joined_with_orphan) emitted
   ∧ (Forall (λ r', r' ∈ rows Demo.train_tiles ∧ r' ∉ rows Demo.test_tiles) emitted
      ∨ Forall (λ r', r' ∈ rows Demo.test_tiles ∧ r' ∉ rows Demo.train_tiles)
               emitted))
  ∧ (let r := Demo.orphan_row in
     let emitted :=
       Pd.join_row (GTEx.tiles_filenames_df Demo.tiles_listing)
                   "Tissue Sample ID" r in
     r !! "tile_filename" = None
     ∧ Forall (λ r', r' ∈ rows Demo.joined_with_orphan) emitted
     ∧ Forall (λ r', (r' ∉ rows Demo.train_tiles) ∧ (r' ∉ rows Demo.test_tiles))
              emitted).
Proof.
  assert (Hwf : wf Demo.metadata_with_orphan) by by_evaluation.
  split; intros r emitted.
  - assert (Hr : r ∈ rows Demo.metadata_with_orphan) by left.
    pose proof (join_is_metadata_left (H := Demo.numpy) Demo.tiles_listing
                  Demo.metadata_with_orphan Demo.joined_with_orphan r
                  Hwf demo_tiles_metadata_run Hr) as Hthm.
    cbv zeta in Hthm. destruct Hthm as (_ & Hemit & _ & Hjoined & Hsplit).
    destruct (Hsplit 0%Z "Tissue" "Subject ID" (1 # 5) 1234%Z
                Demo.train_tiles Demo.test_tiles demo_split_tiles_run)
      as [Hsome _].
    subst emitted. rewrite Hemit. split; [done|]. apply Hsome. by_evaluation.
  - assert (Hr : r ∈ rows Demo.metadata_with_orphan)
      by (apply elem_of_app; right; left).
    pose proof (join_is_metadata_left (H := Demo.numpy) Demo.tiles_listing
                  Demo.metadata_with_orphan Demo.joined_with_orphan r
                  Hwf demo_tiles_metadata_run Hr) as Hthm.
    cbv zeta in Hthm. destruct Hthm as (Hnull & Hemit & _ & Hjoined & Hsplit).
    destruct (Hsplit 0%Z "Tissue" "Subject ID" (1 # 5) 1234%Z
                Demo.train_tiles Demo.test_tiles demo_split_tiles_run)
      as [_ Hnone].
    subst emitted. rewrite Hemit. split; [done|]. split; [done|].
    apply Hnone; by_evaluation.
Defined.

(** C9 fails for a metadata row whose patient id is null: the join keeps
    it, its [tile_filename] null, and the split returns with the row in
    neither output table. *)
Lemma join_unmatched_row_counterexample :
  GTEx.tiles_metadata Demo.tiles_listing Demo.metadata_with_orphan
  = Ok Demo.joined_with_orphan
  ∧ GTEx.split_tiles_patient_wise (H := Demo.numpy) 0%Z Demo.tiles_listing
      Demo.metadata_with_orphan "Tissue" "Subject ID" (1 # 5) 1234%Z
    = Ok (Demo.train_tiles, Demo.test_tiles)
  ∧ Demo.orphan_row ∈ rows Demo.metadata_with_orphan
  ∧ Demo.orphan_row ∈ rows Demo.joined_with_orphan
  ∧ Demo.orphan_row !! "tile_filename" = None
  ∧ (Demo.orphan_row ∉ rows Demo.train_tiles)
  ∧ (Demo.orphan_row ∉ rows Demo.test_tiles).
Proof.
  split; [vm_compute; reflexivity|].
  split; [exact demo_split_tiles_run|].
  split_and!.
  - apply elem_of_app. right. left.
  - do 5 right. left.
  - by_evaluation.
  - by_evaluation.
  - by_evaluation.
Qed.



(** * Further properties of the retriever *)

Section RetrieverRuns.
Context `{Numpy} `{Requests} `{Os}.
Implicit Types (w : GTEx.World) (id : string).

(** An iteration that raises nothing has listed the directory. *)
Lemma download_step_listable w w1 id :
  GTEx.download_step w id = (w1, None) → listdir_error = None.
Proof. unfold GTEx.download_step. by destruct listdir_error. Qed.

(** One iteration over a plain id that raises nothing: either the file was
    there and nothing happened, or it was fetched, written and followed by
    a sleep. *)
Lemma download_step_success w w1 id :
  GTEx.plain id →
  GTEx.download_step w id = (w1, None) →
  (is_Some (GTEx.files w !! (id +:+ ".svs"))
   ∧ GTEx.files w1 = GTEx.files w ∧ GTEx.np_global w1 = GTEx.np_global w
   ∧ GTEx.log w1 = GTEx.log w ++ [(id, [])])
  ∨ (GTEx.files w !! (id +:+ ".svs") = None
     ∧ ∃ content d,
         requests_get (GTEx.url_of id) = Some content
         ∧ randint (GTEx.np_global w) 60 100 = (d, GTEx.np_global w1)
         ∧ GTEx.files w1 = <[id +:+ ".svs" := content]> (GTEx.files w)
         ∧ GTEx.log w1
           = GTEx.log w ++ [(id, [GTEx.Fetch (GTEx.url_of id); GTEx.Sleep d])]).
Proof.
  intros Hplain%plain_svs
    [([e0 He0] & Heq & _)
    |[(Hpresent & _ & Hfiles & Hnp & Hlog)
     |[(_ & _ & [=] & _)
      |[(_ & content & e' & _ & _ & [=] & _)
       |(Habsent & content & d & Hget & Hwrite & _ & Hd & _ & Hlog)]]]]%download_step_cases.
  - congruence.
  - by left.
  - right. split; [done|]. exists content, d. split_and!; [done..| |done].
    by apply open_write_plain in Hwrite.
Qed.

(** The complete account of a run over plain ids that raises nothing. *)
Lemma download_success_spec w w' (ids : list string) :
  Forall GTEx.plain ids →
  GTEx.download_wsi_gtex w ids = (w', None) →
  (∀ k, is_Some (GTEx.files w !! k) → GTEx.files w' !! k = GTEx.files w !! k)
  ∧ (∀ id, id ∈ ids → GTEx.files w !! (id +:+ ".svs") = None →
       is_Some (requests_get (GTEx.url_of id))
       ∧ GTEx.files w' !! (id +:+ ".svs") = requests_get (GTEx.url_of id))
  ∧ (∀ k, GTEx.files w !! k = None → (∀ id, id ∈ ids → k ≠ id +:+ ".svs") →
       GTEx.files w' !! k = None)
  ∧ ∃ new, GTEx.log w' = GTEx.log w ++ new
      ∧ new.*1 = ids
      ∧ NoDup (GTEx.fetched new)
      ∧ (∀ u, u ∈ GTEx.fetched new ↔
           ∃ id, id ∈ ids ∧ u = GTEx.url_of id
                 ∧ GTEx.files w !! (id +:+ ".svs") = None)
      ∧ length (GTEx.slept new) = length (GTEx.fetched new).
Proof.
  intros Hplain. revert w.
  induction Hplain as [|id ids Hid _ IH]; intros w; simpl.
  - intros [= <-]. split_and!; [done|by intros ? ?%elem_of_nil|done|].
    exists []. rewrite app_nil_r. split_and!; [done|done|constructor| |done].
    intros u. split; [by intros ?%elem_of_nil|].
    by intros (? & ?%elem_of_nil & _).
  - destruct (GTEx.download_step w id) as [w1 [e1|]] eqn:Hstep; [done|].
    intros (Hkeep & Hnew & Hother & new & Hlog & Hids & Hnd & Hfetched & Hlen)%IH.
    apply download_step_success in Hstep
      as [(Hpresent & Hfiles & _ & Hlog1)
         |(Habsent & content & d & Hget & _ & Hfiles & Hlog1)]; [| |done].
    + rewrite Hfiles in *.
      split_and!; [done| | |].
      * intros id' [->|Hin]%elem_of_cons Hnone; [|by apply Hnew].
        rewrite Hnone in Hpresent. by destruct Hpresent.
      * intros k Hk Hne. apply Hother; [done|].
        intros id' Hin. apply Hne. by right.
      * exists ((id, []) :: new). split_and!.
        -- by rewrite Hlog, Hlog1, <- app_assoc.
        -- simpl. by f_equal.
        -- done.
        -- intros u. change (GTEx.fetched ((id, []) :: new)) with (GTEx.fetched new).
           rewrite Hfetched. split.
           ++ intros (id' & Hin & -> & Hnone). exists id'. split_and!; [by right|done..].
           ++ intros (id' & [->|Hin]%elem_of_cons & -> & Hnone); [|by eauto].
              rewrite Hnone in Hpresent. by destruct Hpresent.
        -- done.
    + assert (Hw1 : ∀ id', GTEx.files w1 !! (id' +:+ ".svs") = None
                           ↔ id' ≠ id ∧ GTEx.files w !! (id' +:+ ".svs") = None).
      { intros id'. rewrite Hfiles, lookup_insert_None. split.
        - intros [? Hne]. split; [|done]. by intros ->.
        - intros [Hne ?]. split; [done|]. by intros ?%svs_name_inj. }
      split_and!.
      * intros k Hk. rewrite Hkeep.
        -- rewrite Hfiles. apply lookup_insert_ne. intros <-.
           rewrite Habsent in Hk. by destruct Hk.
        -- rewrite Hfiles, lookup_insert_is_Some. destruct Hk. eauto.
           destruct (decide (id +:+ ".svs" = k)); eauto.
      * intros id' Hin Hnone. destruct (decide (id' = id)) as [->|Hne].
        -- rewrite Hget. split; [eauto|].
           rewrite Hkeep; rewrite Hfiles, lookup_insert_eq; eauto.
        -- apply elem_of_cons in Hin as [->|Hin]; [done|].
           apply Hnew; [done|]. by apply Hw1.
      * intros k Hk Hne. apply Hother.
        -- rewrite Hfiles. apply lookup_insert_None. split; [done|].
           intros <-. by apply (Hne id); [left|].
        -- intros id' Hin. apply Hne. by right.
      * exists ((id, [GTEx.Fetch (GTEx.url_of id); GTEx.Sleep d]) :: new).
        change (GTEx.fetched ((id, [GTEx.Fetch (GTEx.url_of id); GTEx.Sleep d]) :: new))
          with (GTEx.url_of id :: GTEx.fetched new).
        change (GTEx.slept ((id, [GTEx.Fetch (GTEx.url_of id); GTEx.Sleep d]) :: new))
          with (d :: GTEx.slept new).
        split_and!.
        -- by rewrite Hlog, Hlog1, <- app_assoc.
        -- simpl. by f_equal.
        -- constructor; [|done]. rewrite Hfetched.
           intros (id' & _ & ->%url_of_inj & Hnone). by apply Hw1 in Hnone as [].
        -- intros u. rewrite elem_of_cons, Hfetched. split.
           ++ intros [->|(id' & Hin & -> & [? ?]%Hw1)].
              ** exists id. split_and!; [by left|done..].
              ** exists id'. split_and!; [by right|done..].
           ++ intros (id' & Hin & -> & Hnone).
              destruct (decide (id' = id)) as [->|Hne]; [by left|right].
              apply elem_of_cons in Hin as [->|Hin]; [done|].
              exists id'. split_and!; [done..|]. by apply Hw1.
        -- simpl. by f_equal.
Qed.

Lemma download_success_present w w' (ids : list string) id :
  Forall GTEx.plain ids →
  GTEx.download_wsi_gtex w ids = (w', None) →
  id ∈ ids →
  is_Some (GTEx.files w' !! (id +:+ ".svs"))
  ∧ (GTEx.files w !! (id +:+ ".svs") = None →
     GTEx.files w' !! (id +:+ ".svs") = requests_get (GTEx.url_of id)).
Proof.
  intros Hplain (Hkeep & Hnew & _)%download_success_spec Hin; [|done].
  destruct (GTEx.files w !! (id +:+ ".svs")) as [c|] eqn:Hc.
  - split; [|done]. rewrite Hkeep, Hc by (rewrite Hc; eauto). eauto.
  - destruct (Hnew id Hin Hc) as [Hsome ->]. done.
Qed.

End RetrieverRuns.

(** X1. After a run of [download_wsi_gtex] over plain sample ids (no path
    separator) that raises nothing, every listed sample id has its file
    [{id}.svs] in the directory, and the file of an id that was absent at
    the start holds exactly the content fetched from the id's URL. *)
Theorem download_all_present `{Numpy} `{Requests} `{Os} (w w' : GTEx.World)
    (sample_ids : list string) (id : string) :
  Forall GTEx.plain sample_ids →
  GTEx.download_wsi_gtex w sample_ids = (w', None) →
  id ∈ sample_ids →
  is_Some (GTEx.files w' !! (id +:+ ".svs"))
  ∧ (GTEx.files w !! (id +:+ ".svs") = None →
     GTEx.files w' !! (id +:+ ".svs") = requests_get (GTEx.url_of id)).
Proof. apply download_success_present. Qed.

Lemma download_all_present_witness :
  is_Some (GTEx.files Demo.world_after !! ("GTEX-B-1" +:+ ".svs"))
  ∧ (GTEx.files Demo.world !! ("GTEX-B-1" +:+ ".svs") = None →
     GTEx.files Demo.world_after !! ("GTEX-B-1" +:+ ".svs")
     = requests_get (Requests := Demo.requests) (GTEx.url_of "GTEX-B-1")).
Proof.
  apply (download_all_present (H := Demo.numpy) (H0 := Demo.requests)
           (H1 := Demo.posix)
           Demo.world Demo.world_after ["GTEX-A-1"; "GTEX-B-1"] "GTEX-B-1").
  - by_evaluation.
  - vm_compute; reflexivity.
  - right. left.
Defined.

(** X2. In a run of [download_wsi_gtex] over plain sample ids that raises
    nothing, the URLs fetched are exactly those of the listed ids whose file
    was absent at the start, each fetched once even when the id is listed
    several times, and there is one sleep per fetch. *)
Theorem download_fetches_absent_once `{Numpy} `{Requests} `{Os}
    (w w' : GTEx.World) (sample_ids : list string) :
  Forall GTEx.plain sample_ids →
  GTEx.download_wsi_gtex w sample_ids = (w', None) →
  ∃ new, GTEx.log w' = GTEx.log w ++ new
    ∧ new.*1 = sample_ids
    ∧ NoDup (GTEx.fetched new)
    ∧ (∀ u, u ∈ GTEx.fetched new ↔
         ∃ id, id ∈ sample_ids ∧ u = GTEx.url_of id
               ∧ GTEx.files w !! (id +:+ ".svs") = None)
    ∧ length (GTEx.slept new) = length (GTEx.fetched new).
Proof. by intros Hplain (_ & _ & _ & Hlog)%download_success_spec. Qed.

Lemma download_fetches_absent_once_witness :
  ∃ new, GTEx.log Demo.world_after_repeat = GTEx.log Demo.world ++ new
    ∧ new.*1 = ["GTEX-B-1"; "GTEX-A-1"; "GTEX-B-1"]
    ∧ NoDup (GTEx.fetched new)
    ∧ (∀ u, u ∈ GTEx.fetched new ↔
         ∃ id, id ∈ ["GTEX-B-1"; "GTEX-A-1"; "GTEX-B-1"] ∧ u = GTEx.url_of id
               ∧ GTEx.files Demo.world !! (id +:+ ".svs") = None)
    ∧ length (GTEx.slept new) = length (GTEx.fetched new).
Proof.
  apply (download_fetches_absent_once (H := Demo.numpy) (H0 := Demo.requests)
           (H1 := Demo.posix)
           Demo.world Demo.world_after_repeat
           ["GTEX-B-1"; "GTEX-A-1"; "GTEX-B-1"]).
  - by_evaluation.
  - vm_compute; reflexivity.
Defined.

Section RetrieverFrame.
Context `{Numpy} `{Requests} `{Os}.
Implicit Types (w : GTEx.World) (id : string).

Lemma download_files_change w w' (ids : list string) e (k : string) :
  Forall GTEx.plain ids →
  GTEx.download_wsi_gtex w ids = (w', e) →
  GTEx.files w' !! k = GTEx.files w !! k
  ∨ (GTEx.files w !! k = None
     ∧ ∃ id, id ∈ ids ∧ k = id +:+ ".svs"
             ∧ is_Some (GTEx.files w' !! k)
             ∧ (e = None → GTEx.files w' !! k = requests_get (GTEx.url_of id))).
Proof.
  intros Hplain. revert w.
  induction Hplain as [|id ids Hid _ IH]; intros w; simpl.
  - intros [= <- <-]. by left.
  - destruct (GTEx.download_step w id) as [w1 e1] eqn:Hstep.
    pose proof (download_step_files _ _ _ _ Hid Hstep)
      as [Hfiles|(Habsent & c & Hfiles & Hget)].
    + destruct e1 as [e1|].
      * intros [= <- <-]. left. by rewrite Hfiles.
      * intros Hrun. specialize (IH _ Hrun). rewrite Hfiles in IH.
        destruct IH as [?|(? & id' & ? & ?)]; [by left|right].
        split; [done|]. exists id'. split; [by right|done].
    + destruct (decide (k = id +:+ ".svs")) as [->|Hne].
      * assert (GTEx.files w1 !! (id +:+ ".svs") = Some c) as Hc
          by (by rewrite Hfiles, lookup_insert_eq).
        destruct e1 as [e1|].
        -- intros [= <- <-]. right. split; [done|].
           exists id. split; [by left|]. split; [done|]. by rewrite Hc.
        -- intros Hrun. specialize (IH _ Hrun). rewrite Hc in IH.
           destruct IH as [IH|[? _]]; [|done].
           right. split; [done|]. exists id. split; [by left|]. split; [done|].
           rewrite IH. split; [by eexists|]. intros _. symmetry. by apply Hget.
      * assert (GTEx.files w1 !! k = GTEx.files w !! k) as Hk
          by (by rewrite Hfiles, lookup_insert_ne).
        destruct e1 as [e1|].
        -- intros [= <- <-]. by left.
        -- intros Hrun. specialize (IH _ Hrun). rewrite Hk in IH.
           destruct IH as [?|(? & id' & ? & ?)]; [by left|right].
           split; [done|]. exists id'. split; [by right|done].
Qed.

Lemma download_all_skipped w (ids : list string) :
  listdir_error = None →
  (∀ id, id ∈ ids → is_Some (GTEx.files w !! (id +:+ ".svs"))) →
  GTEx.download_wsi_gtex w ids
  = (GTEx.Build_World (GTEx.files w) (GTEx.np_global w)
       (GTEx.log w ++ map (λ id, (id, [])) ids), None).
Proof.
  intros Hlistable. revert w. induction ids as [|id ids IH]; intros w Hall; simpl.
  - rewrite app_nil_r. by destruct w.
  - unfold GTEx.download_step. rewrite Hlistable.
    rewrite decide_True by (apply elem_of_listdir, Hall; left).
    rewrite IH by (intros id' Hin; apply Hall; by right).
    simpl. by rewrite <- app_assoc.
Qed.

Lemma download_rerun_skipped w w' (ids : list string) :
  Forall GTEx.plain ids →
  GTEx.download_wsi_gtex w ids = (w', None) →
  GTEx.download_wsi_gtex w' ids
  = (GTEx.Build_World (GTEx.files w') (GTEx.np_global w')
       (GTEx.log w' ++ map (λ id, (id, [])) ids), None).
Proof.
  intros Hplain Hrun. destruct ids as [|id0 ids].
  { simpl. rewrite app_nil_r. by destruct w'. }
  apply download_all_skipped.
  - simpl in Hrun.
    destruct (GTEx.download_step w id0) as [w1 [e1|]] eqn:Hstep; [done|].
    by eapply download_step_listable.
  - intros id Hin. by eapply download_success_present.
Qed.

(** The account of a run that stops on an exception: the iteration that
    raised and what it had done by then. *)
Lemma download_failure_spec w w' (ids : list string) e :
  GTEx.download_wsi_gtex w ids = (w', Some e) →
  ∃ processed id rest new evs,
    ids = processed ++ id :: rest
    ∧ GTEx.log w' = GTEx.log w ++ new ++ [(id, evs)]
    ∧ new.*1 = processed
    ∧ ((listdir_error = Some e ∧ processed = [] ∧ evs = []
        ∧ GTEx.files w' = GTEx.files w)
       ∨ (evs = [GTEx.Fetch (GTEx.url_of id)]
          ∧ requests_get (GTEx.url_of id) = None
          ∧ e = ConnectionError (GTEx.url_of id)
          ∧ GTEx.files w' !! (id +:+ ".svs") = None)
       ∨ (evs = [GTEx.Fetch (GTEx.url_of id)]
          ∧ ∃ content entries,
              entries !! (id +:+ ".svs") = None
              ∧ requests_get (GTEx.url_of id) = Some content
              ∧ open_write entries (id +:+ ".svs") content
                = WriteRaised e (GTEx.files w'))).
Proof.
  revert w. induction ids as [|id ids IH]; intros w; simpl; [done|].
  destruct (GTEx.download_step w id) as [w1 [e1|]] eqn:Hstep.
  - intros [= <- <-]. exists [], id, ids.
    apply download_step_cases in Hstep
      as [(_ & He & Hfiles & _ & Hlog)
         |[(_ & [=] & _)
          |[(Habsent & Hget & [= ->] & Hfiles & _ & Hlog)
           |[(Habsent & content & e' & Hget & Hwrite & [= ->] & _ & Hlog)
            |(_ & content & d & _ & _ & [=] & _)]]]].
    + exists [], []. split_and!; [done..|]. left. by split_and!.
    + eexists [], _. split_and!; [done..|]. right. left.
      rewrite Hfiles. by split_and!.
    + eexists [], _. split_and!; [done..|]. right. right.
      split; [done|]. by exists content, (GTEx.files w).
  - pose proof (download_step_listable _ _ _ Hstep) as Hlistable.
    intros (processed & id' & rest & new & evs' & -> & Hlog & Hnew & Hkind)%IH.
    assert (∃ evs, GTEx.log w1 = GTEx.log w ++ [(id, evs)]) as [evs Hlog1].
    { apply download_step_iteration in Hstep as (evs & ? & _). eauto. }
    exists (id :: processed), id', rest, ((id, evs) :: new), evs'.
    split_and!; [done| |by simpl; f_equal|].
    + by rewrite Hlog, Hlog1, <- app_assoc.
    + destruct Hkind as [(He & _)|Hkind]; [congruence|by right].
Qed.

End RetrieverFrame.

(** X3. Whatever its outcome, a run of [download_wsi_gtex] over plain
    sample ids leaves every directory entry as it was, except that it may
    create [{id}.svs] for a listed id whose file was absent, which holds the
    content fetched for that id when the run raised nothing: it never
    deletes or overwrites a file and never writes under another name. *)
Theorem download_only_creates_listed `{Numpy} `{Requests} `{Os}
    (w w' : GTEx.World) (sample_ids : list string) (e : option exn)
    (k : string) :
  Forall GTEx.plain sample_ids →
  GTEx.download_wsi_gtex w sample_ids = (w', e) →
  GTEx.files w' !! k = GTEx.files w !! k
  ∨ (GTEx.files w !! k = None
     ∧ ∃ id, id ∈ sample_ids ∧ k = id +:+ ".svs"
             ∧ is_Some (GTEx.files w' !! k)
             ∧ (e = None → GTEx.files w' !! k = requests_get (GTEx.url_of id))).
Proof. apply download_files_change. Qed.

Lemma download_only_creates_listed_witness :
  GTEx.files Demo.world_after !! "thumbs.db" = GTEx.files Demo.world !! "thumbs.db"
  ∨ (GTEx.files Demo.world !! "thumbs.db" = None
     ∧ ∃ id, id ∈ ["GTEX-A-1"; "GTEX-B-1"] ∧ "thumbs.db" = id +:+ ".svs"
             ∧ is_Some (GTEx.files Demo.world_after !! "thumbs.db")
             ∧ (@None exn = None →
                GTEx.files Demo.world_after !! "thumbs.db"
                = requests_get (Requests := Demo.requests) (GTEx.url_of id))).
Proof.
  apply (download_only_creates_listed (H := Demo.numpy) (H0 := Demo.requests)
           (H1 := Demo.posix)
           Demo.world Demo.world_after ["GTEX-A-1"; "GTEX-B-1"] None "thumbs.db").
  - by_evaluation.
  - vm_compute; reflexivity.
Defined.

(** X4. [download_wsi_gtex] is idempotent on plain sample ids: after a run
    that raised nothing, a second run over the same list raises nothing,
    fetches nothing, sleeps nothing, and leaves the files and numpy's global
    generator as they were; it only logs one empty iteration per listed
    id. *)
Theorem download_twice_skips_all `{Numpy} `{Requests} `{Os} (w w' : GTEx.World)
    (sample_ids : list string) :
  Forall GTEx.plain sample_ids →
  GTEx.download_wsi_gtex w sample_ids = (w', None) →
  GTEx.download_wsi_gtex w' sample_ids
  = (GTEx.Build_World (GTEx.files w') (GTEx.np_global w')
       (GTEx.log w' ++ map (λ id, (id, [])) sample_ids), None).
Proof. apply download_rerun_skipped. Qed.

Lemma download_twice_skips_all_witness :
  GTEx.download_wsi_gtex (H := Demo.numpy) (H0 := Demo.requests)
    (H1 := Demo.posix) Demo.world_after ["GTEX-A-1"; "GTEX-B-1"]
  = (GTEx.Build_World (H := Demo.numpy) (GTEx.files Demo.world_after)
       (GTEx.np_global Demo.world_after)
       (GTEx.log Demo.world_after
        ++ map (λ id, (id, [])) ["GTEX-A-1"; "GTEX-B-1"]), None).
Proof.
  apply (download_twice_skips_all (H := Demo.numpy) (H0 := Demo.requests)
           (H1 := Demo.posix)
           Demo.world Demo.world_after ["GTEX-A-1"; "GTEX-B-1"]).
  - by_evaluation.
  - vm_compute; reflexivity.
Defined.

(** X5. When a run of [download_wsi_gtex] stops on an exception, the ids
    listed after the one whose iteration raised were not processed, and the
    exception is one of three: that of listing the directory, raised in the
    first iteration before any fetch; the transport error of the fetch, and
    then no file was created for that id; or the exception that [open] or
    [write] raised on [{id}.svs] after a completed fetch, and then the
    directory is what that failed write left. In the last two cases the log
    ends with that fetch, without a sleep. *)
Theorem download_failure_stops `{Numpy} `{Requests} `{Os} (w w' : GTEx.World)
    (sample_ids : list string) (e : exn) :
  GTEx.download_wsi_gtex w sample_ids = (w', Some e) →
  ∃ processed id rest new evs,
    sample_ids = processed ++ id :: rest
    ∧ GTEx.log w' = GTEx.log w ++ new ++ [(id, evs)]
    ∧ new.*1 = processed
    ∧ ((listdir_error = Some e ∧ processed = [] ∧ evs = []
        ∧ GTEx.files w' = GTEx.files w)
       ∨ (evs = [GTEx.Fetch (GTEx.url_of id)]
          ∧ requests_get (GTEx.url_of id) = None
          ∧ e = ConnectionError (GTEx.url_of id)
          ∧ GTEx.files w' !! (id +:+ ".svs") = None)
       ∨ (evs = [GTEx.Fetch (GTEx.url_of id)]
          ∧ ∃ content entries,
              entries !! (id +:+ ".svs") = None
              ∧ requests_get (GTEx.url_of id) = Some content
              ∧ open_write entries (id +:+ ".svs") content
                = WriteRaised e (GTEx.files w'))).
Proof. apply download_failure_spec. Qed.

Lemma download_failure_stops_witness :
  ∃ processed id rest new evs,
    ["GTEX-A-1"; "GTEX-B-1"; "GTEX-C-1"] = processed ++ id :: rest
    ∧ GTEx.log Demo.world_failed = GTEx.log Demo.world ++ new ++ [(id, evs)]
    ∧ new.*1 = processed
    ∧ ((listdir_error (Os := Demo.posix)
        = Some (ConnectionError "https://brd.nci.nih.gov/brd/imagedownload/GTEX-B-1")
        ∧ processed = [] ∧ evs = []
        ∧ GTEx.files Demo.world_failed = GTEx.files Demo.world)
       ∨ (evs = [GTEx.Fetch (GTEx.url_of id)]
          ∧ requests_get (Requests := Demo.offline) (GTEx.url_of id) = None
          ∧ ConnectionError "https://brd.nci.nih.gov/brd/imagedownload/GTEX-B-1"
            = ConnectionError (GTEx.url_of id)
          ∧ GTEx.files Demo.world_failed !! (id +:+ ".svs") = None)
       ∨ (evs = [GTEx.Fetch (GTEx.url_of id)]
          ∧ ∃ content entries,
              entries !! (id +:+ ".svs") = None
              ∧ requests_get (Requests := Demo.offline) (GTEx.url_of id)
                = Some content
              ∧ open_write (Os := Demo.posix) entries (id +:+ ".svs") content
                = WriteRaised
                    (ConnectionError
                       "https://brd.nci.nih.gov/brd/imagedownload/GTEX-B-1")
                    (GTEx.files Demo.world_failed))).
Proof.
  apply (download_failure_stops (H := Demo.numpy) (H0 := Demo.offline)
           (H1 := Demo.posix)
           Demo.world Demo.world_failed ["GTEX-A-1"; "GTEX-B-1"; "GTEX-C-1"]
           (ConnectionError "https://brd.nci.nih.gov/brd/imagedownload/GTEX-B-1")).
  vm_compute; reflexivity.
Defined.


(** * Further properties of the patient-wise splitter *)

Section SplitterMore.
Context `{Numpy}.
Implicit Types (df : DataFrame) (r : gmap string string).

(** The sorted unique patient ids the split is made over. *)
Lemma train_test_df_patient_wise_unfold g df patient_col label_col test_size seed :
  patient_col ∈ columns df → label_col ∈ columns df →
  GTEx.train_test_df_patient_wise g df patient_col label_col test_size seed
  = '(train_patients, test_patients) ←
      Sk.train_test_split g
        (merge_sort String.le (Pd.unique (column_values df patient_col)))
        test_size (Some seed);
    Ok (Pd.loc df (Pd.isin df patient_col train_patients),
        Pd.loc df (Pd.isin df patient_col test_patients)).
Proof.
  intros Hp Hl. unfold GTEx.train_test_df_patient_wise.
  destruct (Pd.groupby_unique df patient_col label_col) as [pwl|e] eqn:Hg.
  - apply groupby_unique_keys in Hg as (_ & _ & Hk). simpl. by rewrite Hk.
  - unfold Pd.groupby_unique in Hg. by rewrite !decide_True in Hg by done.
Qed.

Lemma train_test_df_patient_wise_columns g df patient_col label_col test_size seed
    tr te :
  GTEx.train_test_df_patient_wise g df patient_col label_col test_size seed
  = Ok (tr, te) →
  patient_col ∈ columns df ∧ label_col ∈ columns df.
Proof.
  unfold GTEx.train_test_df_patient_wise. intros Hs.
  destruct (Pd.groupby_unique df patient_col label_col) as [pwl|] eqn:Hg; [|done].
  by apply groupby_unique_keys in Hg as (? & ? & _).
Qed.

Lemma length_index_array {A} (arr : list A) (indices : list nat) :
  Forall (λ i, i < length arr)%nat indices →
  length (Sk.index_array arr indices) = length indices.
Proof.
  unfold Sk.index_array. induction 1 as [|i l Hi _ IH]; simpl; [done|].
  destruct (lookup_lt_is_Some_2 arr i Hi) as [x ->]. simpl. by f_equal.
Qed.

Lemma train_test_split_returns {A} g (arr : list A) test_size seed :
  (∃ tr te, Sk.train_test_split g arr test_size (Some seed) = Ok (tr, te))
  ↔ (0 < test_size)%Q ∧ (test_size < 1)%Q
    ∧ (ceil_mul test_size (length arr) < length arr)%nat
    ∧ (0 ≤ seed < 2 ^ 32)%Z.
Proof.
  unfold Sk.train_test_split, Sk.validate_shuffle_split, Sk.check_random_state.
  destruct (Qle_bool test_size 0) eqn:H0; simpl.
  { apply Qle_bool_iff in H0. split; [by intros (? & ? & ?)|].
    intros (Hpos & _). by apply Qlt_not_le in Hpos. }
  destruct (Qle_bool 1 test_size) eqn:H1; simpl.
  { apply Qle_bool_iff in H1. split; [by intros (? & ? & ?)|].
    intros (_ & Hlt & _). by apply Qlt_not_le in Hlt. }
  assert (0 < test_size)%Q.
  { apply Qnot_le_lt. rewrite <- Qle_bool_iff. congruence. }
  assert (test_size < 1)%Q.
  { apply Qnot_le_lt. rewrite <- Qle_bool_iff. congruence. }
  destruct (decide (_ = 0)%nat) as [Hz|Hnz]; simpl.
  { split; [by intros (? & ? & ?)|]. intros (_ & _ & ? & _). lia. }
  destruct (decide (0 ≤ seed < 2 ^ 32)%Z); simpl.
  - split; [|by eauto]. intros _. split; [done|]. split; [done|]. split; [lia|done].
  - split; [by intros (? & ? & ?)|]. by intros (_ & _ & _ & ?).
Qed.

Lemma train_test_split_lengths {A} g (arr : list A) test_size random_state tr te :
  Sk.train_test_split g arr test_size random_state = Ok (tr, te) →
  let n_test := ceil_mul test_size (length arr) in
  length te = n_test ∧ length tr = (length arr - n_test)%nat
  ∧ (0 < n_test < length arr)%nat.
Proof.
  intros Hs n_test. pose proof (train_test_split_perm _ _ _ _ _ _ Hs) as Hperm.
  apply Permutation_length in Hperm. rewrite length_app in Hperm.
  revert Hs. unfold Sk.train_test_split, Sk.validate_shuffle_split.
  destruct (Qle_bool test_size 0) eqn:H0; [done|]. simpl.
  destruct (Qle_bool 1 test_size); [done|]. simpl.
  fold n_test. destruct (decide (_ = 0)%nat) as [|Hnz]; [done|]. simpl.
  destruct (Sk.check_random_state g random_state) as [rng|]; [|done]. simpl.
  intros [= <- <-].
  pose proof (permutation_perm rng (length arr)) as Hp.
  assert (Hte : length (Sk.index_array arr (take n_test (permutation rng (length arr))))
                = n_test).
  { rewrite length_index_array.
    - rewrite length_take, (Permutation_length Hp), length_seq. lia.
    - apply Forall_take. rewrite Hp. apply Forall_forall.
      intros i Hi%elem_of_seq. lia. }
  rewrite Hte in *. split_and!; [done|lia| |lia].
  apply ceil_mul_pos; [|lia].
  apply Qnot_le_lt. rewrite <- Qle_bool_iff. congruence.
Qed.

Lemma train_test_df_patient_wise_split g df patient_col label_col test_size seed tr te :
  GTEx.train_test_df_patient_wise g df patient_col label_col test_size seed
  = Ok (tr, te) →
  ∃ train_patients test_patients : list string,
    Sk.train_test_split g
      (merge_sort String.le (Pd.unique (column_values df patient_col)))
      test_size (Some seed) = Ok (train_patients, test_patients)
    ∧ tr = Pd.loc df (Pd.isin df patient_col train_patients)
    ∧ te = Pd.loc df (Pd.isin df patient_col test_patients).
Proof.
  intros Hs.
  destruct (train_test_df_patient_wise_columns _ _ _ _ _ _ _ _ Hs) as [Hp Hl].
  rewrite train_test_df_patient_wise_unfold in Hs by done.
  destruct (Sk.train_test_split _ _ _ _) as [[trp tep]|]; [|done].
  injection Hs as <- <-. eauto.
Qed.

(** The distinct patient ids of a filtered table are the filtering list,
    when that list holds distinct ids of the table. *)
Lemma unique_column_values_loc df col (values : list string) :
  NoDup values → (∀ x, x ∈ values → x ∈ column_values df col) →
  Pd.unique (column_values (Pd.loc df (Pd.isin df col values)) col) ≡ₚ values.
Proof.
  intros Hnd Hsub. apply NoDup_Permutation; [apply NoDup_unique|done|].
  intros x. rewrite elem_of_unique. split; [apply elem_of_column_values_loc|].
  intros Hx. unfold column_values. rewrite rows_loc_isin.
  pose proof (Hsub x Hx) as Hin. unfold column_values in Hin.
  apply list_elem_of_omap in Hin as (r & Hr & Hrx).
  apply list_elem_of_omap. exists r. split; [|done].
  apply list_elem_of_filter. split; [|done].
  unfold Pd.isin_row. rewrite Hrx. by apply bool_decide_eq_true_2.
Qed.

End SplitterMore.

(** X6. [train_test_df_patient_wise] returns two tables exactly when both
    columns are columns of the table, the test fraction lies strictly
    between 0 and 1, the seed is in [0, 2**32 - 1], and with n distinct
    non-null patient ids the floating-point [ceil(test_size * n)] is less
    than n; otherwise it raises. *)
Theorem split_returns_iff `{Numpy} (g : RandomState) (df : DataFrame)
    (patient_col label_col : string) (test_size : Q) (seed : Z) :
  (∃ tr te,
     GTEx.train_test_df_patient_wise g df patient_col label_col test_size seed
     = Ok (tr, te))
  ↔ patient_col ∈ columns df ∧ label_col ∈ columns df
    ∧ (0 < test_size)%Q ∧ (test_size < 1)%Q
    ∧ (ceil_mul test_size (length (Pd.unique (column_values df patient_col)))
       < length (Pd.unique (column_values df patient_col)))%nat
    ∧ (0 ≤ seed < 2 ^ 32)%Z.
Proof.
  rewrite <- (Permutation_length
                (merge_sort_Permutation String.le
                   (Pd.unique (column_values df patient_col)))).
  split.
  - intros (tr & te & Hs).
    destruct (train_test_df_patient_wise_columns _ _ _ _ _ _ _ _ Hs) as [Hp Hl].
    apply train_test_df_patient_wise_split in Hs as (trp & tep & Hs & _).
    assert (Hret : ∃ tr te,
              Sk.train_test_split g
                (merge_sort String.le (Pd.unique (column_values df patient_col)))
                test_size (Some seed) = Ok (tr, te)) by eauto.
    apply train_test_split_returns in Hret as (? & ? & ? & ?). done.
  - intros (Hp & Hl & Hrest).
    rewrite train_test_df_patient_wise_unfold by done.
    apply (train_test_split_returns g) in Hrest as (trp & tep & ->). eauto.
Qed.

Lemma split_returns_iff_witness :
  ∃ tr te,
    GTEx.train_test_df_patient_wise (H := Demo.numpy) 0%Z Demo.metadata
      "Subject ID" "Tissue" (1 # 5) 1234%Z = Ok (tr, te).
Proof.
  apply (split_returns_iff (H := Demo.numpy) 0%Z Demo.metadata
           "Subject ID" "Tissue" (1 # 5) 1234%Z).
  split; [right; left|]. split; [right; right; left|].
  split; [reflexivity|]. split; [reflexivity|].
  split; [vm_compute; lia|lia].
Defined.

(** X7. When [train_test_df_patient_wise] returns, with n distinct patient
    ids in the input, the test table holds exactly [ceil(test_size * n)]
    distinct patients, the ceiling being the one floating-point arithmetic
    computes, and the train table the other [n - ceil(test_size * n)];
    both numbers are at least one, so neither table is empty. *)
Theorem split_sizes `{Numpy} (g : RandomState) (df : DataFrame)
    (patient_col label_col : string) (test_size : Q) (seed : Z)
    (tr te : DataFrame) :
  GTEx.train_test_df_patient_wise g df patient_col label_col test_size seed
  = Ok (tr, te) →
  let n := length (Pd.unique (column_values df patient_col)) in
  let n_test := ceil_mul test_size n in
  length (Pd.unique (column_values te patient_col)) = n_test
  ∧ length (Pd.unique (column_values tr patient_col)) = (n - n_test)%nat
  ∧ (0 < n_test < n)%nat.
Proof.
  intros Hs n n_test.
  pose proof Hs as (trp & tep & Hsplit & -> & ->)%train_test_df_patient_wise_split.
  pose proof (train_test_split_perm _ _ _ _ _ _ Hsplit) as Hperm.
  rewrite merge_sort_Permutation in Hperm.
  apply train_test_split_lengths in Hsplit as (Hte & Htr & Hn).
  rewrite (Permutation_length (merge_sort_Permutation _ _)) in Hte, Htr, Hn.
  assert (Hnd : NoDup (tep ++ trp)) by (rewrite Hperm; apply NoDup_unique).
  apply NoDup_app in Hnd as (Hndte & _ & Hndtr).
  assert (Hsub : ∀ x, x ∈ tep ++ trp → x ∈ column_values df patient_col).
  { intros x. by rewrite Hperm, elem_of_unique. }
  assert (Hute : Pd.unique (column_values
                    (Pd.loc df (Pd.isin df patient_col tep)) patient_col) ≡ₚ tep).
  { apply unique_column_values_loc; [done|].
    intros x Hx. apply Hsub, elem_of_app. by left. }
  assert (Hutr : Pd.unique (column_values
                    (Pd.loc df (Pd.isin df patient_col trp)) patient_col) ≡ₚ trp).
  { apply unique_column_values_loc; [done|].
    intros x Hx. apply Hsub, elem_of_app. by right. }
  rewrite (Permutation_length Hute), (Permutation_length Hutr). done.
Qed.

Lemma split_sizes_witness :
  let n := length (Pd.unique (column_values Demo.metadata "Subject ID")) in
  let n_test := ceil_mul (Numpy := Demo.numpy) (1 # 5) n in
  length (Pd.unique (column_values (Pd.loc Demo.metadata [false; false; false; true])
                                   "Subject ID")) = n_test
  ∧ length (Pd.unique (column_values (Pd.loc Demo.metadata [true; true; true; false])
                                     "Subject ID")) = (n - n_test)%nat
  ∧ (0 < n_test < n)%nat.
Proof.
  apply (split_sizes (H := Demo.numpy) 0%Z Demo.metadata "Subject ID" "Tissue"
           (1 # 5) 1234%Z).
  vm_compute; reflexivity.
Defined.

(** X8. When [train_test_df_patient_wise] returns, two rows of the input
    with the same patient id land in the same table: one is in the train
    table exactly when the other is, and likewise for the test table. *)
Theorem split_keeps_patient_together `{Numpy} (g : RandomState) (df : DataFrame)
    (patient_col label_col : string) (test_size : Q) (seed : Z)
    (tr te : DataFrame) (r1 r2 : gmap string string) :
  GTEx.train_test_df_patient_wise g df patient_col label_col test_size seed
  = Ok (tr, te) →
  r1 ∈ rows df → r2 ∈ rows df → r1 !! patient_col = r2 !! patient_col →
  (r1 ∈ rows tr ↔ r2 ∈ rows tr) ∧ (r1 ∈ rows te ↔ r2 ∈ rows te).
Proof.
  intros (trp & tep & _ & -> & ->)%train_test_df_patient_wise_inv Hr1 Hr2 Heq.
  rewrite !rows_loc_isin, !list_elem_of_filter.
  unfold Pd.isin_row. rewrite Heq. tauto.
Qed.

Lemma split_keeps_patient_together_witness :
  let r1 := Demo.metadata_row "GTEX-A-1" "GTEX-A" "Lung" in
  let r2 := Demo.metadata_row "GTEX-A-2" "GTEX-A" "Liver" in
  (r1 ∈ rows (Pd.loc Demo.metadata [true; true; true; false])
   ↔ r2 ∈ rows (Pd.loc Demo.metadata [true; true; true; false]))
  ∧ (r1 ∈ rows (Pd.loc Demo.metadata [false; false; false; true])
     ↔ r2 ∈ rows (Pd.loc Demo.metadata [false; false; false; true])).
Proof.
  apply (split_keeps_patient_together (H := Demo.numpy) 0%Z Demo.metadata
           "Subject ID" "Tissue" (1 # 5) 1234%Z).
  - vm_compute; reflexivity.
  - left.
  - right. right. left.
  - vm_compute; reflexivity.
Defined.

(** X9. When [train_test_df_patient_wise] returns, each output table has
    the columns of the input and its rows are rows of the input in their
    input order (a subsequence of the input rows). *)
Theorem split_outputs_are_subtables `{Numpy} (g : RandomState) (df : DataFrame)
    (patient_col label_col : string) (test_size : Q) (seed : Z)
    (tr te : DataFrame) :
  GTEx.train_test_df_patient_wise g df patient_col label_col test_size seed
  = Ok (tr, te) →
  columns tr = columns df ∧ columns te = columns df
  ∧ rows tr `sublist_of` rows df ∧ rows te `sublist_of` rows df.
Proof.
  intros (trp & tep & _ & -> & ->)%train_test_df_patient_wise_inv.
  rewrite !rows_loc_isin. split_and!; [done..| |]; apply sublist_filter.
Qed.

Lemma split_outputs_are_subtables_witness :
  let tr := Pd.loc Demo.metadata [true; true; true; false] in
  let te := Pd.loc Demo.metadata [false; false; false; true] in
  columns tr = columns Demo.metadata ∧ columns te = columns Demo.metadata
  ∧ rows tr `sublist_of` rows Demo.metadata
  ∧ rows te `sublist_of` rows Demo.metadata.
Proof.
  apply (split_outputs_are_subtables (H := Demo.numpy) 0%Z Demo.metadata
           "Subject ID" "Tissue" (1 # 5) 1234%Z).
  vm_compute; reflexivity.
Defined.

Section OrderIndependence.
Context `{Numpy}.
Implicit Types (df : DataFrame) (r : gmap string string).

Lemma unique_Permutation {A} `{EqDecision A} (l l' : list A) :
  l' ≡ₚ l → Pd.unique l' ≡ₚ Pd.unique l.
Proof.
  intros Hperm. apply NoDup_Permutation; [apply NoDup_unique..|].
  intros x. by rewrite !elem_of_unique, Hperm.
Qed.

Lemma sorted_keys_Permutation df df' (col : string) :
  rows df' ≡ₚ rows df →
  merge_sort String.le (Pd.unique (column_values df' col))
  = merge_sort String.le (Pd.unique (column_values df col)).
Proof.
  intros Hperm.
  apply (StronglySorted_unique String.le);
    [apply StronglySorted_merge_sort; apply _..|].
  rewrite !merge_sort_Permutation. apply unique_Permutation.
  unfold column_values. by rewrite Hperm.
Qed.

Lemma train_test_df_patient_wise_Permutation g df df' patient_col label_col
    test_size seed tr te :
  columns df' = columns df → rows df' ≡ₚ rows df →
  GTEx.train_test_df_patient_wise g df patient_col label_col test_size seed
  = Ok (tr, te) →
  ∃ tr' te',
    GTEx.train_test_df_patient_wise g df' patient_col label_col test_size seed
    = Ok (tr', te')
    ∧ rows tr' ≡ₚ rows tr ∧ rows te' ≡ₚ rows te.
Proof.
  intros Hcols Hperm Hs.
  destruct (train_test_df_patient_wise_columns _ _ _ _ _ _ _ _ Hs) as [Hp Hl].
  apply train_test_df_patient_wise_split in Hs as (trp & tep & Hsplit & -> & ->).
  rewrite train_test_df_patient_wise_unfold by by rewrite Hcols.
  rewrite (sorted_keys_Permutation df df') by done. rewrite Hsplit.
  eexists _, _. split; [done|].
  rewrite !rows_loc_isin. by rewrite Hperm.
Qed.

Lemma join_row_Permutation (other other' : list (string * gmap string string))
    (on : string) r :
  other' ≡ₚ other → Pd.join_row other' on r ≡ₚ Pd.join_row other on r.
Proof.
  intros Hperm. unfold Pd.join_row.
  assert (Hms : filter (λ o, r !! on = Some o.1) other'
                ≡ₚ filter (λ o, r !! on = Some o.1) other) by by rewrite Hperm.
  destruct (filter _ other) as [|o ms], (filter _ other') as [|o' ms'].
  - done.
  - by apply Permutation_nil_r in Hms.
  - by apply Permutation_nil_l in Hms.
  - change (map ?f ?l) with (f <$> l). by rewrite Hms.
Qed.

Lemma bind_Permutation_pointwise {A B} (f f' : A → list B) (l : list A) :
  (∀ x, f' x ≡ₚ f x) → l ≫= f' ≡ₚ l ≫= f.
Proof.
  intros Hf. induction l as [|x l IH]; [done|].
  by rewrite !bind_cons, Hf, IH.
Qed.

Lemma tiles_metadata_Permutation (listing listing' : list string) df joined :
  listing' ≡ₚ listing →
  GTEx.tiles_metadata listing df = Ok joined →
  ∃ joined', GTEx.tiles_metadata listing' df = Ok joined'
    ∧ columns joined' = columns joined ∧ rows joined' ≡ₚ rows joined.
Proof.
  intros Hperm Hj.
  pose proof Hj as (Hon & Htf & Hrows)%tiles_metadata_inv.
  rewrite tiles_metadata_ok in Hj by done. injection Hj as <-.
  rewrite tiles_metadata_ok by done. eexists. split; [done|]. split; [done|].
  simpl. apply bind_Permutation_pointwise. intros r.
  apply join_row_Permutation. unfold GTEx.tiles_filenames_df, GTEx.tiles_filenames.
  change (map ?f ?l) with (f <$> l). by rewrite Hperm.
Qed.

End OrderIndependence.

(** X10. The split does not depend on the order of the rows: when
    [train_test_df_patient_wise] returns on a table, it returns on every
    table with the same columns and the same rows in another order, and
    each output table holds the same rows as before (up to order). *)
Theorem split_row_order_independent `{Numpy} (g : RandomState) (df df' : DataFrame)
    (patient_col label_col : string) (test_size : Q) (seed : Z)
    (tr te : DataFrame) :
  columns df' = columns df → rows df' ≡ₚ rows df →
  GTEx.train_test_df_patient_wise g df patient_col label_col test_size seed
  = Ok (tr, te) →
  ∃ tr' te',
    GTEx.train_test_df_patient_wise g df' patient_col label_col test_size seed
    = Ok (tr', te')
    ∧ rows tr' ≡ₚ rows tr ∧ rows te' ≡ₚ rows te.
Proof. apply train_test_df_patient_wise_Permutation. Qed.

Lemma split_row_order_independent_witness :
  ∃ tr' te',
    GTEx.train_test_df_patient_wise (H := Demo.numpy) 0%Z
      {| columns := columns Demo.metadata; rows := reverse (rows Demo.metadata) |}
      "Subject ID" "Tissue" (1 # 5) 1234%Z = Ok (tr', te')
    ∧ rows tr' ≡ₚ rows (Pd.loc Demo.metadata [true; true; true; false])
    ∧ rows te' ≡ₚ rows (Pd.loc Demo.metadata [false; false; false; true]).
Proof.
  apply (split_row_order_independent (H := Demo.numpy) 0%Z Demo.metadata
           {| columns := columns Demo.metadata;
              rows := reverse (rows Demo.metadata) |}
           "Subject ID" "Tissue" (1 # 5) 1234%Z).
  - reflexivity.
  - apply reverse_Permutation.
  - vm_compute; reflexivity.
Defined.

(** X11. The outputs of [split_tiles_patient_wise] do not depend on the
    order in which the tiles directory is listed: when it returns for one
    listing, it returns for every reordering of the listing, with the same
    rows in each output table (up to order). *)
Theorem split_tiles_listing_order_independent `{Numpy} (g : RandomState)
    (listing listing' : list string) (metadata_df : DataFrame)
    (label_col patient_col : string) (test_size : Q) (seed : Z)
    (tr te : DataFrame) :
  listing' ≡ₚ listing →
  GTEx.split_tiles_patient_wise g listing metadata_df label_col patient_col
                                test_size seed = Ok (tr, te) →
  ∃ tr' te',
    GTEx.split_tiles_patient_wise g listing' metadata_df label_col patient_col
                                  test_size seed = Ok (tr', te')
    ∧ rows tr' ≡ₚ rows tr ∧ rows te' ≡ₚ rows te.
Proof.
  intros Hperm (joined & Hjoin & Hsplit)%split_tiles_patient_wise_inv.
  destruct (tiles_metadata_Permutation _ _ _ _ Hperm Hjoin)
    as (joined' & Hjoin' & Hcols & Hrows).
  unfold GTEx.split_tiles_patient_wise. rewrite Hjoin'. simpl.
  by eapply train_test_df_patient_wise_Permutation.
Qed.

Lemma split_tiles_listing_order_independent_witness :
  ∃ tr' te',
    GTEx.split_tiles_patient_wise (H := Demo.numpy) 0%Z
      (reverse Demo.tiles_listing) Demo.metadata_with_orphan
      "Tissue" "Subject ID" (1 # 5) 1234%Z = Ok (tr', te')
    ∧ rows tr' ≡ₚ rows Demo.train_tiles ∧ rows te' ≡ₚ rows Demo.test_tiles.
Proof.
  apply (split_tiles_listing_order_independent (H := Demo.numpy) 0%Z
           Demo.tiles_listing (reverse Demo.tiles_listing)
           Demo.metadata_with_orphan "Tissue" "Subject ID" (1 # 5) 1234%Z).
  - apply reverse_Permutation.
  - vm_compute; reflexivity.
Defined.


(** * Further properties of the tile names and of the join *)

Section TileNames.
Implicit Types (s stem f name part : string) (c : ascii).

Lemma string_app_assoc s1 s2 s3 : (s1 +:+ s2) +:+ s3 = s1 +:+ (s2 +:+ s3).
Proof.
  induction s1 as [|c s1 IH]; [done|].
  change (String c ((s1 +:+ s2) +:+ s3) = String c (s1 +:+ (s2 +:+ s3))).
  by f_equal.
Qed.

Lemma chars_app s1 s2 : Py.chars (s1 +:+ s2) = Py.chars s1 ++ Py.chars s2.
Proof.
  induction s1 as [|c s1 IH]; [done|].
  change (c :: Py.chars (s1 +:+ s2) = c :: (Py.chars s1 ++ Py.chars s2)).
  by f_equal.
Qed.

Lemma take_drop_string (n : nat) s : Py.take n s +:+ Py.drop n s = s.
Proof.
  revert s. induction n as [|n IH]; intros [|c s]; try done.
  change (String c (Py.take n s +:+ Py.drop n s) = String c s). by f_equal.
Qed.

Lemma rfind_app_png stem :
  Py.rfind "." (stem +:+ ".png") = Some (String.length stem).
Proof.
  induction stem as [|c stem IH]; [done|].
  change (match Py.rfind "." (stem +:+ ".png") with
          | Some i => Some (S i)
          | None => if decide (c = "."%char) then Some 0%nat else None
          end = Some (S (String.length stem))).
  by rewrite IH.
Qed.

Lemma take_length_app s1 s2 : Py.take (String.length s1) (s1 +:+ s2) = s1.
Proof.
  induction s1 as [|c s1 IH]; [by destruct s2|].
  change (String c (Py.take (String.length s1) (s1 +:+ s2)) = String c s1).
  by f_equal.
Qed.

Lemma drop_length_app s1 s2 : Py.drop (String.length s1) (s1 +:+ s2) = s2.
Proof. induction s1 as [|c s1 IH]; [by destruct s2|]. exact IH. Qed.

Lemma forallb_dots_false (l : list ascii) c :
  c ∈ l → c ≠ "."%char →
  forallb (λ c, bool_decide (c = "."%char)) l = false.
Proof.
  intros Hin Hne. induction Hin as [c l|c d l Hin IH]; simpl.
  - by rewrite bool_decide_eq_false_2.
  - rewrite IH by done. apply andb_false_r.
Qed.

Lemma forallb_dots_false_inv (l : list ascii) :
  forallb (λ c, bool_decide (c = "."%char)) l = false →
  ∃ c, c ∈ l ∧ c ≠ "."%char.
Proof.
  induction l as [|d l IH]; simpl; [done|].
  destruct (bool_decide (d = "."%char)) eqn:Hd; simpl.
  - intros (c & Hin & Hne)%IH. exists c. split; [by right|done].
  - intros _. exists d. split; [left|]. by apply bool_decide_eq_false in Hd.
Qed.

Lemma splitext_png stem c :
  c ∈ Py.chars stem → c ≠ "."%char →
  Py.splitext (stem +:+ ".png") = (stem, ".png").
Proof.
  intros Hin Hne. unfold Py.splitext.
  rewrite rfind_app_png, take_length_app, drop_length_app.
  by rewrite (forallb_dots_false _ c).
Qed.

Lemma splitext_png_inv f :
  (Py.splitext f).2 = ".png" →
  ∃ stem c, f = stem +:+ ".png" ∧ c ∈ Py.chars stem ∧ c ≠ "."%char.
Proof.
  unfold Py.splitext. destruct (Py.rfind "." f) as [i|]; [|done].
  destruct (forallb _ _) eqn:Hdots; [done|]. simpl. intros Hext.
  apply forallb_dots_false_inv in Hdots as (c & Hin & Hne).
  exists (Py.take i f), c. split; [|done].
  rewrite <- Hext. symmetry. apply take_drop_string.
Qed.

Lemma sample_id_of_cons c f :
  c ≠ "_"%char → GTEx.sample_id_of (String c f) = String c (GTEx.sample_id_of f).
Proof.
  intros Hne. unfold GTEx.sample_id_of. by rewrite split_head_cons.
Qed.

Lemma tile_filename_png name part :
  GTEx.tile_filename name (part +:+ ".png")
  = (name +:+ String "_" part) +:+ ".png".
Proof.
  rewrite tile_filename_unfold, string_app_assoc. done.
Qed.

Lemma tile_filename_is_tile name part (listing : list string) :
  GTEx.tile_filename name (part +:+ ".png") ∈ listing →
  GTEx.tile_filename name (part +:+ ".png") ∈ GTEx.tiles_filenames listing.
Proof.
  intros Hin. apply list_elem_of_filter. split; [|done].
  rewrite tile_filename_png, (splitext_png _ "_"); [done| |done].
  rewrite chars_app. apply elem_of_app. right. left.
Qed.

End TileNames.

(** X12. The file names [split_tiles_patient_wise] takes as tiles are the
    entries of the listing of the form [stem.png] whose stem holds a
    character other than a dot (so [a.b.png] is a tile, [.png], [..png],
    [a.PNG] and [a.png.bak] are not). *)
Theorem tiles_filenames_iff (listing : list string) (f : string) :
  f ∈ GTEx.tiles_filenames listing
  ↔ f ∈ listing
    ∧ ∃ stem c, f = stem +:+ ".png" ∧ c ∈ Py.chars stem ∧ c ≠ "."%char.
Proof.
  unfold GTEx.tiles_filenames. rewrite list_elem_of_filter. split.
  - intros [Hext Hin]. split; [done|]. by apply splitext_png_inv.
  - intros [Hin (stem & c & -> & Hc & Hne)]. split; [|done].
    by rewrite (splitext_png stem c).
Qed.

Lemma tiles_filenames_iff_witness :
  "a.b.png" ∈ GTEx.tiles_filenames ["a.b.png"; "..png"].
Proof.
  apply (tiles_filenames_iff ["a.b.png"; "..png"] "a.b.png").
  split; [left|]. exists "a.b", "a"%char.
  split; [reflexivity|]. split; [left|discriminate].
Defined.

(** X13. Tiles of different slides never share a file name when the slide
    names hold no ['_']: for such names, equal tile names come from the
    same slide and the same tiler part. *)
Theorem tile_filename_injective (name1 name2 part1 part2 : string) :
  "_"%char ∉ Py.chars name1 → "_"%char ∉ Py.chars name2 →
  GTEx.tile_filename name1 part1 = GTEx.tile_filename name2 part2 →
  name1 = name2 ∧ part1 = part2.
Proof.
  intros H1 H2 Heq. rewrite !tile_filename_unfold in Heq.
  assert (name1 = name2) as <-.
  { apply (f_equal GTEx.sample_id_of) in Heq.
    by rewrite !sample_id_of_prefix in Heq. }
  split; [done|]. apply (inj _) in Heq. by injection Heq.
Qed.

Lemma tile_filename_injective_witness :
  "GTEX-A-1" = "GTEX-A-1" ∧ "tile_0.png" = "tile_0.png".
Proof.
  apply (tile_filename_injective "GTEX-A-1" "GTEX-A-1" "tile_0.png" "tile_0.png").
  - by_evaluation.
  - by_evaluation.
  - reflexivity.
Defined.

(** X14. The sample id derived from a file name holds no ['_'] and is the
    part of the name before its first ['_']: the name is the derived id
    itself, or the derived id followed by ['_'] and a rest. *)
Theorem sample_id_of_is_prefix (f : string) :
  ("_"%char ∉ Py.chars (GTEx.sample_id_of f))
  ∧ (f = GTEx.sample_id_of f
     ∨ ∃ rest, f = GTEx.sample_id_of f +:+ String "_" rest).
Proof.
  split; [apply sample_id_of_no_sep|].
  induction f as [|c f IH]; [by left|].
  destruct (decide (c = "_"%char)) as [->|Hne].
  - right. exists f. unfold GTEx.sample_id_of. by rewrite split_head_sep.
  - rewrite sample_id_of_cons by done. destruct IH as [IH|[rest IH]].
    + left. by f_equal.
    + right. exists rest.
      change (String c f = String c (GTEx.sample_id_of f +:+ String "_" rest)).
      by f_equal.
Qed.

Section JoinMore.
Implicit Types (df : DataFrame) (r : gmap string string) (f : string).

Lemma elem_of_join_row (listing : list string) r r' :
  r !! "tile_filename" = None →
  r' ∈ Pd.join_row (GTEx.tiles_filenames_df listing) "Tissue Sample ID" r
  ↔ (r' = r
     ∧ ∀ f, f ∈ GTEx.tiles_filenames listing →
            r !! "Tissue Sample ID" ≠ Some (GTEx.sample_id_of f))
    ∨ ∃ f, f ∈ GTEx.tiles_filenames listing
           ∧ r !! "Tissue Sample ID" = Some (GTEx.sample_id_of f)
           ∧ r' = <["tile_filename" := f]> r.
Proof.
  intros Hnull. rewrite join_row_emitted by done.
  destruct (filter _ (GTEx.tiles_filenames listing)) as [|f0 ms] eqn:Hms.
  - rewrite list_elem_of_singleton. split.
    + intros ->. left. split; [done|]. intros f Hf Hsid.
      eapply (filter_nil_not_elem_of _ _ f); [exact Hms|exact Hsid|exact Hf].
    + intros [[-> _]|(f & Hf & Hsid & _)]; [done|].
      exfalso. eapply (filter_nil_not_elem_of _ _ f); [exact Hms|exact Hsid|exact Hf].
  - rewrite <- Hms. change (map ?g ?l) with (g <$> l).
    rewrite list_elem_of_fmap. split.
    + intros (f & -> & [Hsid Hf]%list_elem_of_filter). right. eauto.
    + intros [[_ Hno]|(f & Hf & Hsid & ->)].
      * assert (Hf0 : f0 ∈ filter (λ f, r !! "Tissue Sample ID"
                                        = Some (GTEx.sample_id_of f))
                                  (GTEx.tiles_filenames listing))
          by (rewrite Hms; left).
        apply list_elem_of_filter in Hf0 as [Hsid0 Hin0]. by destruct (Hno f0).
      * exists f. split; [done|]. by apply list_elem_of_filter.
Qed.

End JoinMore.

(** X15. Every row of the joined table is a metadata row: either as it is,
    its [tile_filename] null, when no tile has its sample id, or extended
    with the name of one tile of the listing whose derived sample id is
    the row's sample id. No joined row carries a tile of another sample,
    and no joined row carries a file that is not a [.png] tile of the
    listing. *)
Theorem joined_rows_sound (listing : list string) (metadata_df joined : DataFrame)
    (r' : gmap string string) :
  wf metadata_df →
  GTEx.tiles_metadata listing metadata_df = Ok joined →
  r' ∈ rows joined →
  match r' !! "tile_filename" with
  | Some f =>
      f ∈ listing ∧ (Py.splitext f).2 = ".png"
      ∧ r' !! "Tissue Sample ID" = Some (GTEx.sample_id_of f)
      ∧ ∃ r, r ∈ rows metadata_df ∧ r' = <["tile_filename" := f]> r
  | None =>
      r' ∈ rows metadata_df
      ∧ ∀ f, f ∈ GTEx.tiles_filenames listing →
             r' !! "Tissue Sample ID" ≠ Some (GTEx.sample_id_of f)
  end.
Proof.
  intros Hwf (_ & Htf & Hrows)%tiles_metadata_inv Hin.
  rewrite Hrows in Hin. apply list_elem_of_bind in Hin as (r & Hr' & Hr).
  assert (Hnull : r !! "tile_filename" = None) by by eapply wf_null_column.
  apply elem_of_join_row in Hr' as [[-> Hno]|(f & Hf & Hsid & ->)]; [| |done].
  - by rewrite Hnull.
  - rewrite lookup_insert_eq.
    apply list_elem_of_filter in Hf as [Hext Hlisted].
    split_and!; [done..| |by eauto].
    by rewrite lookup_insert_ne.
Qed.

Lemma joined_rows_sound_witness :
  let r' := Demo.tile_row "GTEX-B-1" "GTEX-B" "Liver"
              "GTEX-B-1_tile_0_level2_0-0-512-512.png" in
  match r' !! "tile_filename" with
  | Some f =>
      f ∈ Demo.tiles_listing ∧ (Py.splitext f).2 = ".png"
      ∧ r' !! "Tissue Sample ID" = Some (GTEx.sample_id_of f)
      ∧ ∃ r, r ∈ rows Demo.metadata ∧ r' = <["tile_filename" := f]> r
  | None =>
      r' ∈ rows Demo.metadata
      ∧ ∀ f, f ∈ GTEx.tiles_filenames Demo.tiles_listing →
             r' !! "Tissue Sample ID" ≠ Some (GTEx.sample_id_of f)
  end.
Proof.
  apply (joined_rows_sound Demo.tiles_listing Demo.metadata Demo.joined).
  - by_evaluation.
  - vm_compute; reflexivity.
  - right. right. left.
Defined.

(** X16. When the tiles directory holds no [.png] tile (in particular when
    it is empty), the join returns the metadata rows unchanged, with the
    added column [tile_filename] null in every row. *)
Theorem join_without_tiles (listing : list string) (metadata_df : DataFrame) :
  GTEx.tiles_filenames listing = [] →
  "Tissue Sample ID" ∈ columns metadata_df →
  "tile_filename" ∉ columns metadata_df →
  GTEx.tiles_metadata listing metadata_df
  = Ok {| columns := columns metadata_df ++ ["tile_filename"];
          rows := rows metadata_df |}.
Proof.
  intros Hnone Hon Htf. rewrite tiles_metadata_ok by done.
  do 2 f_equal. unfold GTEx.tiles_filenames_df. rewrite Hnone. simpl.
  induction (rows metadata_df) as [|r l IH]; [done|].
  rewrite bind_cons, IH. done.
Qed.

Lemma join_without_tiles_witness :
  GTEx.tiles_metadata ["thumbnail.jpg"; ".png"] Demo.metadata
  = Ok {| columns := columns Demo.metadata ++ ["tile_filename"];
          rows := rows Demo.metadata |}.
Proof.
  apply (join_without_tiles ["thumbnail.jpg"; ".png"] Demo.metadata).
  - vm_compute; reflexivity.
  - left.
  - by_evaluation.
Defined.

(** X17. From tile extraction to the join: a tile that
    [extract_random_tiles] names [{slide_name}_{tiler part}.png] for a
    slide whose name holds no ['_'], and that the listing of the tiles
    directory holds, is attached by the join to every metadata row whose
    sample id is the slide name. *)
Theorem slide_tiles_reach_their_metadata (listing : list string)
    (metadata_df joined : DataFrame) (slide_name tiler_part : string)
    (r : gmap string string) :
  wf metadata_df →
  GTEx.tiles_metadata listing metadata_df = Ok joined →
  "_"%char ∉ Py.chars slide_name →
  GTEx.tile_filename slide_name (tiler_part +:+ ".png") ∈ listing →
  r ∈ rows metadata_df → r !! "Tissue Sample ID" = Some slide_name →
  <["tile_filename" := GTEx.tile_filename slide_name (tiler_part +:+ ".png")]> r
  ∈ rows joined.
Proof.
  intros Hwf (_ & Htf & Hrows)%tiles_metadata_inv Hname Hlisted Hr Hsid.
  rewrite Hrows. apply list_elem_of_bind. exists r. split; [|done].
  apply elem_of_join_row; [by eapply wf_null_column|]. right.
  eexists. split; [by apply tile_filename_is_tile|]. split; [|done].
  by rewrite tile_filename_unfold, sample_id_of_prefix.
Qed.

Lemma slide_tiles_reach_their_metadata_witness :
  <["tile_filename" :=
      GTEx.tile_filename "GTEX-B-1" ("tile_0_level2_0-0-512-512" +:+ ".png")]>
    (Demo.metadata_row "GTEX-B-1" "GTEX-B" "Liver")
  ∈ rows Demo.joined.
Proof.
  apply (slide_tiles_reach_their_metadata Demo.tiles_listing Demo.metadata
           Demo.joined "GTEX-B-1" "tile_0_level2_0-0-512-512").
  - by_evaluation.
  - vm_compute; reflexivity.
  - by_evaluation.
  - by_evaluation.
  - right. left.
  - vm_compute; reflexivity.
Defined.

(** X18. No patient has tiles in both tables written by
    [split_tiles_patient_wise]: whenever it returns, the patient ids of the
    rows of the train table and those of the test table are disjoint. *)
Theorem split_tiles_leakage_free `{Numpy} (g : RandomState) (listing : list string)
    (metadata_df : DataFrame) (label_col patient_col : string) (test_size : Q)
    (seed : Z) (tr te : DataFrame) :
  GTEx.split_tiles_patient_wise g listing metadata_df label_col patient_col
                                test_size seed = Ok (tr, te) →
  column_values tr patient_col ## column_values te patient_col.
Proof.
  intros (joined & _ & Hsplit)%split_tiles_patient_wise_inv.
  by eapply split_patients_disjoint.
Qed.

Lemma split_tiles_leakage_free_witness :
  column_values Demo.train_tiles "Subject ID"
  ## column_values Demo.test_tiles "Subject ID".
Proof.
  apply (split_tiles_leakage_free (H := Demo.numpy) 0%Z Demo.tiles_listing
           Demo.metadata_with_orphan "Tissue" "Subject ID" (1 # 5) 1234%Z).
  vm_compute; reflexivity.
Defined.


(** * Further properties of the registry *)

Section LegacyRegistry.

Lemma legacy_comprehension_cases (acc : gmap string string) (fs : list string) :
  match Registry.legacy_comprehension acc fs with
  | Ok m =>
      (∀ f, f ∈ fs → is_Some (Registry.registry !! ("data/" +:+ f)))
      ∧ ∀ k, m !! k = if decide (k ∈ (λ f, "data/" +:+ f) <$> fs)
                      then Registry.registry !! k else acc !! k
  | Raise e =>
      ∃ f, f ∈ fs ∧ Registry.registry !! ("data/" +:+ f) = None
           ∧ e = KeyError ("data/" +:+ f)
  end.
Proof.
  revert acc. induction fs as [|f fs IH]; intros acc;
    cbn [Registry.legacy_comprehension].
  - split; [by intros ? ?%elem_of_nil|]. intros k.
    destruct (decide (k ∈ (λ f, "data/" +:+ f) <$> [])) as [Hin|]; [|done].
    by apply elem_of_nil in Hin.
  - unfold Registry.getitem.
    destruct (Registry.registry !! ("data/" +:+ f)) as [v|] eqn:Hv; simpl.
    + specialize (IH (<["data/" +:+ f := v]> acc)).
      destruct (Registry.legacy_comprehension _ fs) as [m|e].
      * destruct IH as [Hall Hm]. split.
        { intros f' [->|Hf']%elem_of_cons; [by rewrite Hv|by apply Hall]. }
        intros k. rewrite Hm.
        destruct (decide (k ∈ (λ f, "data/" +:+ f) <$> fs)) as [Hin|Hnin].
        -- by rewrite decide_True by by right.
        -- destruct (decide (k = "data/" +:+ f)) as [->|Hne].
           ++ rewrite lookup_insert_eq. by rewrite decide_True by left.
           ++ rewrite lookup_insert_ne by done.
              rewrite decide_False; [done|]. by intros [?|?]%elem_of_cons.
      * destruct IH as (f' & Hf' & Hnone & ->). exists f'. split; [by right|done].
    + exists f. split; [left|done].
Qed.

End LegacyRegistry.

(** X19. The comprehension that builds [legacy_registry], for any list of
    legacy file names: when it returns, every listed file has a hash in
    [registry] under ["data/" + filename] and the result is [registry]
    restricted to those keys; otherwise it raises [KeyError] for the key
    of a listed file that [registry] lacks. *)
Theorem legacy_comprehension_spec (filenames : list string) :
  match Registry.legacy_comprehension ∅ filenames with
  | Ok legacy =>
      (∀ f, f ∈ filenames → is_Some (Registry.registry !! ("data/" +:+ f)))
      ∧ ∀ k v, legacy !! k = Some v
               ↔ Registry.registry !! k = Some v
                 ∧ ∃ f, f ∈ filenames ∧ k = "data/" +:+ f
  | Raise e =>
      ∃ f, f ∈ filenames ∧ Registry.registry !! ("data/" +:+ f) = None
           ∧ e = KeyError ("data/" +:+ f)
  end.
Proof.
  pose proof (legacy_comprehension_cases ∅ filenames) as Hcases.
  destruct (Registry.legacy_comprehension ∅ filenames) as [legacy|e]; [|done].
  destruct Hcases as [Hall Hlookup]. split; [done|].
  intros k v. rewrite Hlookup.
  destruct (decide (k ∈ (λ f, "data/" +:+ f) <$> filenames)) as [Hin|Hnin].
  - apply list_elem_of_fmap in Hin as (f & -> & Hf). naive_solver.
  - rewrite lookup_empty. split; [done|].
    intros [_ (f & Hf & ->)]. destruct Hnin. apply list_elem_of_fmap. eauto.
Qed.

Lemma legacy_comprehension_spec_witness :
  ∃ f, f ∈ ["cmu_small_region.svs"; "missing.svs"]
       ∧ Registry.registry !! ("data/" +:+ f) = None
       ∧ KeyError "data/missing.svs" = KeyError ("data/" +:+ f).
Proof.
  pose proof (legacy_comprehension_spec ["cmu_small_region.svs"; "missing.svs"])
    as Hspec.
  assert (Hrun : Registry.legacy_comprehension ∅ ["cmu_small_region.svs"; "missing.svs"]
                 = Raise (KeyError "data/missing.svs"))
    by (vm_compute; reflexivity).
  rewrite Hrun in Hspec. exact Hspec.
Defined.
